(** * llm-commit: the staged-change commit helper of [auto-commit.py]

    A shallow embedding of [GitCommitHelper] and of the script's entry
    point.  Python strings are [string]s, the [(path, diff, content)] tuples
    of [get_staged_changes] are triples, and everything the script does to
    the outside (subprocesses, files, the environment, the Anthropic client,
    the terminal) goes through a read-only [world] of oracles and is logged
    as a trace of [event]s.  Exceptions, [sys.exit] included, are the
    [Raise] results of a small writer/exception monad. *)

From Stdlib Require Import List String Ascii Bool Arith ZArith Lia.
From Stdlib Require Import DecimalString DecimalNat.
Import ListNotations.

Local Open Scope list_scope.
Local Open Scope string_scope.

(** ** Strings *)

Module PyStr.

(** ["\n"] and the double quote, which a literal cannot hold here. *)
Definition nl : string := String "010"%char EmptyString.
Definition dquote : string := String "034"%char EmptyString.

(** [str(n)] and [f"{n}"] for a non-negative [int]: decimal digits,
    no sign, no leading zero. *)
Definition str_of_nat (n : nat) : string :=
  NilEmpty.string_of_uint (Nat.to_uint n).

(** [bool(s)] for a [str]: only the empty string is falsy. *)
Definition truthy (s : string) : bool :=
  match s with
  | EmptyString => false
  | String _ _ => true
  end.

(** [s.split(sep)] for a one-character separator: never an empty list,
    and a trailing separator leaves a trailing empty field. *)
Fixpoint split (sep : ascii) (s : string) : list string :=
  match s with
  | EmptyString => [EmptyString]
  | String c rest =>
      if Ascii.eqb c sep then EmptyString :: split sep rest
      else match split sep rest with
           | [] => [String c EmptyString]
           | field :: fields => String c field :: fields
           end
  end.

(** [s.lower()] on the ASCII letters; every other character is kept. *)
Definition lower_ascii (c : ascii) : ascii :=
  let n := nat_of_ascii c in
  if (65 <=? n)%nat && (n <=? 90)%nat then ascii_of_nat (n + 32) else c.

Fixpoint lower (s : string) : string :=
  match s with
  | EmptyString => EmptyString
  | String c rest => String (lower_ascii c) (lower rest)
  end.

(** Joining without a separator. *)
Fixpoint join (parts : list string) : string :=
  match parts with
  | [] => EmptyString
  | p :: rest => p ++ join rest
  end.

End PyStr.
Import PyStr.

(** ** Data model *)

(** One staged file: the [Tuple[str, str, str]] built in
    [get_staged_changes], read back by position. *)
Definition ChangeRecord : Type := (string * string * string)%type.

Definition path (r : ChangeRecord) : string := fst (fst r).
Definition diff (r : ChangeRecord) : string := snd (fst r).
Definition content (r : ChangeRecord) : string := snd r.

(** An element of [message.content] in a response of the client. *)
Inductive content_block : Type :=
| TextBlock (text : string)
| OtherBlock.

(** What [get_commit_message_from_claude] hands back: [message.content] on
    success, the [str] of [generate_fallback_message] otherwise. *)
Inductive commit_message : Type :=
| Blocks (blocks : list content_block)
| Plain (text : string).

(** ** Prompt builder *)

Definition prompt_header_lines : list string :=
  [ "You are a helpful assistant that generates descriptive git commit messages. ";
    "        Analyze the following changes and generate a clear, informative commit message that describes what was changed and why.";
    "        Focus on the functional changes and their impact. Use the active voice and present tense.";
    "";
    "        Just answer directly with the commit text.";
    "        ";
    "        The commit message should follow this format:";
    "        - First line: Short summary (50-72 characters)";
    "        - Second line: Blank";
    "        - Following lines: Detailed explanation if needed";
    "        ";
    "        Here are the changes:" ].

(** The triple-quoted literal that [prompt] starts from: its twelve source
    lines, then the two escaped line feeds that end it. *)
Definition prompt_header : string :=
  String.concat nl prompt_header_lines ++ nl ++ nl.

Definition prompt_closing : string :=
  nl ++ "Based on these changes, generate a commit message that explains what was changed and why.".

(** One turn of the [for] loop of [prepare_claude_prompt]: three [+=]. *)
Definition prompt_step (prompt : string) (change : ChangeRecord) : string :=
  let '(file_path, diff, content) := change in
  let prompt := prompt ++ ("File: " ++ file_path ++ nl) in
  let prompt := prompt ++ ("Diff:" ++ nl ++ diff ++ nl) in
  let prompt := prompt ++ ("Current file content:" ++ nl ++ content ++ nl ++ nl) in
  prompt.

(** [prepare_claude_prompt]. *)
Definition prepare_claude_prompt (changes : list ChangeRecord) : string :=
  let prompt := prompt_header in
  let prompt := fold_left prompt_step changes prompt in
  let prompt := prompt ++ prompt_closing in
  prompt.

(** ** Exceptions, events and the world *)

(** The exception classes the script can meet.  [SystemExit] is what
    [sys.exit] raises; it derives from [BaseException] only, so
    [except Exception] lets it through. *)
Inductive exn : Type :=
| SystemExit (code : Z)
| CalledProcessError
| OSError
| IndexError
| AttributeError
| TypeError
| EOFError
| AnthropicError (msg : string).

Definition is_Exception (e : exn) : bool :=
  match e with
  | SystemExit _ => false
  | _ => true
  end.

Definition is_CalledProcessError (e : exn) : bool :=
  match e with
  | CalledProcessError => true
  | _ => false
  end.

(** [str(e)]. *)
Definition str_exn (e : exn) : string :=
  match e with
  | AnthropicError msg => msg
  | SystemExit _ | CalledProcessError | OSError | IndexError
  | AttributeError | TypeError | EOFError => ""
  end.

(** What the script does to the outside, in program order: a child
    process started with its argument vector, a [print] of a text (the
    line feed [print] adds is left out), a file opened for reading or for
    writing (which truncates it), a text written to an open file, a line
    asked for on the terminal, and a request sent to the generation
    service (the sampling temperature, the constant 0.7, is not recorded). *)
Inductive event : Type :=
| EvSpawn (argv : list string)
| EvPrint (text : string)
| EvOpenRead (file : string)
| EvOpenWrite (file : string)
| EvFileWrite (file text : string)
| EvInput (prompt : string)
| EvMessagesCreate (model : string) (max_tokens : nat) (prompt : string).

(** How a child process ends for [subprocess]: exit status zero with its
    decoded standard output, a non-zero exit status ([check] turns it into
    [CalledProcessError]), or no process at all because the executable
    could not be started ([FileNotFoundError], an [OSError]). *)
Inductive proc_outcome : Type :=
| Exited0 (stdout : string)
| ExitedNonZero
| NotSpawned.

(** The surroundings of one run.  A child process is determined by its
    argument vector, a file's readability by its path: the script is
    sequential and changes nothing before its last step. *)
Record world : Type := {
  getenv : string -> option string;
  (** [Anthropic(api_key=...)]: [Some msg] when the constructor raises. *)
  anthropic_new : option string -> option string;
  subprocess : list string -> proc_outcome;
  (** [open(file, 'r')] then [read()]: [None] when either raises. *)
  read_text : string -> option string;
  (** [open(file, 'w')]: [false] when it raises. *)
  open_w : string -> bool;
  (** [messages.create] on a prompt: [inl msg] when it raises. *)
  messages_create : string -> string + list content_block;
  (** The line [input] reads; [None] at end of file. *)
  stdin_line : option string
}.

(** ** The monad: a result or an exception, and the events so far *)

Inductive result (A : Type) : Type :=
| Ret (a : A)
| Raise (e : exn).
Arguments Ret {A} a.
Arguments Raise {A} e.

Definition M (A : Type) : Type := (result A * list event)%type.

Definition ret {A} (a : A) : M A := (Ret a, []).
Definition raise {A} (e : exn) : M A := (Raise e, []).
Definition emit (ev : event) : M unit := (Ret tt, [ev]).

Definition bind {A B} (m : M A) (k : A -> M B) : M B :=
  match m with
  | (Ret a, t) => let (r, t') := k a in (r, (t ++ t')%list)
  | (Raise e, t) => (Raise e, t)
  end.

(** [try: body except <catches> as e: handler e]. *)
Definition try_except {A} (body : M A) (catches : exn -> bool)
    (handler : exn -> M A) : M A :=
  match body with
  | (Raise e, t) =>
      if catches e then let (r, t') := handler e in (r, (t ++ t')%list)
      else (Raise e, t)
  | (Ret a, t) => (Ret a, t)
  end.

Notation "x <- m ;; k" := (bind m (fun x => k))
  (at level 61, m at next level, right associativity).
Notation "m ;; k" := (bind m (fun _ => k))
  (at level 61, right associativity).

(** [for x in xs: body], threading the variables the body updates. *)
Fixpoint for_each {A S} (xs : list A) (body : A -> S -> M S) (s : S) : M S :=
  match xs with
  | [] => ret s
  | x :: rest => s' <- body x s ;; for_each rest body s'
  end.

Definition outcome {A} (m : M A) : result A := fst m.
Definition trace {A} (m : M A) : list event := snd m.

(** The exit status of the interpreter: 0 when the script runs off its
    end, the argument of [sys.exit], 1 after an uncaught exception. *)
Definition exit_status (r : result unit) : Z :=
  match r with
  | Ret _ => 0
  | Raise (SystemExit code) => code
  | Raise _ => 1
  end%Z.

(** Whether the interpreter prints a traceback: after any uncaught
    exception other than [SystemExit]. *)
Definition traceback (r : result unit) : bool :=
  match r with
  | Ret _ => false
  | Raise e => is_Exception e
  end.

(** ** Fallback generator *)

(** [xs[0]]: an [IndexError] on an empty list. *)
Definition item0 {A} (xs : list A) : M A :=
  match xs with
  | [] => raise IndexError
  | x :: _ => ret x
  end.

(** [generate_fallback_message]. *)
Definition generate_fallback_message (changes : list ChangeRecord) : M string :=
  if Nat.eqb (List.length changes) 1 then
    change <- item0 changes ;;
    let file_path := path change in
    ret ("Update " ++ file_path)
  else
    ret ("Update " ++ str_of_nat (List.length changes) ++ " files").

(** The string [generate_fallback_message] returns, in closed form. *)
Definition fallback_text (changes : list ChangeRecord) : string :=
  match changes with
  | [r] => "Update " ++ path r
  | _ => "Update " ++ str_of_nat (List.length changes) ++ " files"
  end.

(** ** The script *)

Section GitCommitHelper.

Variable w : world.

(** *** Built-ins and library calls *)

Definition print (text : string) : M unit := emit (EvPrint text).

Definition sys_exit {A} (code : Z) : M A := raise (SystemExit code).

(** [subprocess.check_output(argv, universal_newlines=True)]. *)
Definition check_output (argv : list string) : M string :=
  emit (EvSpawn argv) ;;
  match subprocess w argv with
  | Exited0 stdout => ret stdout
  | ExitedNonZero => raise CalledProcessError
  | NotSpawned => raise OSError
  end.

(** [subprocess.run(argv, check=True)]. *)
Definition subprocess_run (argv : list string) : M unit :=
  emit (EvSpawn argv) ;;
  match subprocess w argv with
  | Exited0 _ => ret tt
  | ExitedNonZero => raise CalledProcessError
  | NotSpawned => raise OSError
  end.

(** [with open(file, 'r') as f: f.read()]. *)
Definition read_file (file : string) : M string :=
  emit (EvOpenRead file) ;;
  match read_text w file with
  | Some text => ret text
  | None => raise OSError
  end.

(** [f.write(data)] on a text file: a [str] is written, anything else
    is a [TypeError]. *)
Definition file_write (file : string) (data : commit_message) : M unit :=
  match data with
  | Plain text => emit (EvFileWrite file text)
  | Blocks _ => raise TypeError
  end.

(** [with open(file, 'w') as f: f.write(data)]. *)
Definition write_file (file : string) (data : commit_message) : M unit :=
  emit (EvOpenWrite file) ;;
  if open_w w file then file_write file data else raise OSError.

(** [input(prompt)]. *)
Definition input (prompt : string) : M string :=
  emit (EvInput prompt) ;;
  match stdin_line w with
  | Some line => ret line
  | None => raise EOFError
  end.

(** [self.anthropic.messages.create(model=..., max_tokens=1000,
    temperature=0.7, messages=[{"role": "user", "content": prompt}])]
    followed by [.content]. *)
Definition create_message (prompt : string) : M (list content_block) :=
  emit (EvMessagesCreate "claude-3-5-sonnet-latest" 1000 prompt) ;;
  match messages_create w prompt with
  | inr blocks => ret blocks
  | inl msg => raise (AnthropicError msg)
  end.

(** [commit_message[0].text]: indexing an empty list or string is an
    [IndexError]; a one-character [str] has no attribute [text], nor has a
    block that is not a text block. *)
Definition first_text (m : commit_message) : M string :=
  match m with
  | Blocks [] => raise IndexError
  | Blocks (TextBlock text :: _) => ret text
  | Blocks (OtherBlock :: _) => raise AttributeError
  | Plain EmptyString => raise IndexError
  | Plain (String _ _) => raise AttributeError
  end.

(** *** Methods of [GitCommitHelper] *)

(** [__init__]. *)
Definition init : M unit :=
  match anthropic_new w (getenv w "ANTHROPIC_API_KEY") with
  | None => ret tt
  | Some msg => raise (AnthropicError msg)
  end.

Definition list_staged_argv : list string :=
  ["git"; "diff"; "--cached"; "--name-only"].

Definition diff_argv (file_path : string) : list string :=
  ["git"; "diff"; "--cached"; file_path].

(** The body of the [for] loop of [get_staged_changes]. *)
Definition collect_one (file_path : string) (changes : list ChangeRecord)
    : M (list ChangeRecord) :=
  diff <- check_output (diff_argv file_path) ;;
  file_content <- try_except (read_file file_path) (fun _ => true)
                    (fun _ => ret "") ;;
  ret (changes ++ [(file_path, diff, file_content)])%list.

(** [get_staged_changes]. *)
Definition get_staged_changes : M (list ChangeRecord) :=
  try_except
    (staged_files <- check_output list_staged_argv ;;
     let staged_files := split "010"%char staged_files in
     let staged_files := filter truthy staged_files in
     let changes := [] in
     changes <- for_each staged_files collect_one changes ;;
     ret changes)
    is_CalledProcessError
    (fun _ =>
       print "Error: Not a git repository or git is not installed" ;;
       sys_exit 1%Z).

(** [get_commit_message_from_claude]. *)
Definition get_commit_message_from_claude (changes : list ChangeRecord)
    : M commit_message :=
  try_except
    (let prompt := prepare_claude_prompt changes in
     message <- create_message prompt ;;
     ret (Blocks message))
    is_Exception
    (fun e =>
       print ("Error calling Claude API: " ++ str_exn e) ;;
       fallback <- generate_fallback_message changes ;;
       ret (Plain fallback)).

Definition commit_argv (message : string) : list string :=
  ["git"; "commit"; "-m"; message].

Definition commit_edit_argv : list string := ["git"; "commit"; "-e"].

(** [create_commit]. *)
Definition create_commit (message : string) : M unit :=
  try_except
    (subprocess_run (commit_argv message) ;;
     print ("Successfully created commit with message:" ++ nl ++ message))
    is_CalledProcessError
    (fun _ =>
       print "Error: Failed to create commit" ;;
       sys_exit 1%Z).

(** [not os.getenv(name)]. *)
Definition env_missing (name : string) : bool :=
  match getenv w name with
  | None => true
  | Some value => negb (truthy value)
  end.

Definition triple_quote : string := dquote ++ dquote ++ dquote.

(** [run]. *)
Definition run : M unit :=
  (if env_missing "ANTHROPIC_API_KEY" then
     print "Error: ANTHROPIC_API_KEY environment variable not set" ;;
     sys_exit 1%Z
   else ret tt) ;;
  changes <- get_staged_changes ;;
  (match changes with
   | [] => print "No changes staged for commit" ;; sys_exit 0%Z
   | _ :: _ => ret tt
   end) ;;
  commit_message <- get_commit_message_from_claude changes ;;
  print (nl ++ "Suggested commit message:") ;;
  shown <- first_text commit_message ;;
  print (triple_quote ++ nl ++ shown ++ nl ++ triple_quote) ;;
  confirmation <- input (nl ++ "Do you want to create this commit? (y/n/e[edit]): ") ;;
  if String.eqb (lower confirmation) "y" then
    message <- first_text commit_message ;;
    create_commit message
  else if String.eqb (lower confirmation) "e" then
    write_file ".git/COMMIT_EDITMSG" commit_message ;;
    subprocess_run commit_edit_argv
  else
    print "Commit cancelled".

(** The [__main__] block: build the helper, then [run] it. *)
Definition main : M unit :=
  init ;;
  run.

End GitCommitHelper.

(** ** The shape of the prompt, as the specification words it *)

(** The text one change adds to the prompt. *)
Definition record_block (r : ChangeRecord) : string :=
  "File: " ++ path r ++ nl
  ++ ("Diff:" ++ nl ++ diff r ++ nl)
  ++ ("Current file content:" ++ nl ++ content r ++ nl ++ nl).

(** A prompt as a sequence of pieces: fixed text of the program, or the
    place where one field of the [i]-th change is put. *)
Inductive field : Type := FPath | FDiff | FContent.

Inductive piece : Type :=
| Fixed (text : string)
| Slot (i : nat) (f : field).

Definition record_layout (i : nat) : list piece :=
  [ Fixed "File: "; Slot i FPath; Fixed nl;
    Fixed ("Diff:" ++ nl); Slot i FDiff; Fixed nl;
    Fixed ("Current file content:" ++ nl); Slot i FContent; Fixed (nl ++ nl) ].

(** The layout for [n] changes: it depends on their number only. *)
Definition prompt_layout (n : nat) : list piece :=
  (Fixed prompt_header :: flat_map record_layout (seq 0 n)
   ++ [Fixed prompt_closing])%list.

Definition field_of (f : field) (r : ChangeRecord) : string :=
  match f with
  | FPath => path r
  | FDiff => diff r
  | FContent => content r
  end.

Definition fill (changes : list ChangeRecord) (p : piece) : string :=
  match p with
  | Fixed text => text
  | Slot i f =>
      match nth_error changes i with
      | Some r => field_of f r
      | None => EmptyString
      end
  end.

(** The slots of a layout, in order of appearance. *)
Definition slots (layout : list piece) : list (nat * field) :=
  flat_map (fun p => match p with
                     | Fixed _ => []
                     | Slot i f => [(i, f)]
                     end) layout.

Definition record_slots (i : nat) : list (nat * field) :=
  [(i, FPath); (i, FDiff); (i, FContent)].

Definition slot_eq_dec (a b : nat * field) : {a = b} + {a <> b}.
Proof.
  decide equality; [decide equality | apply Nat.eq_dec].
Defined.

(** ** What the collector is expected to gather *)

(** The staged paths in a listing of [git diff --cached --name-only]: its
    non-empty lines. *)
Definition staged_paths (listing : string) : list string :=
  filter truthy (split "010"%char listing).

(** The record of one staged path when its diff query succeeds: the diff
    text git printed, and the file's text or the empty string. *)
Definition collected (w : world) (file_path : string) : ChangeRecord :=
  (file_path,
   match subprocess w (diff_argv file_path) with
   | Exited0 text => text
   | _ => EmptyString
   end,
   match read_text w file_path with
   | Some text => text
   | None => EmptyString
   end).

Definition collect_events (file_path : string) : list event :=
  [EvSpawn (diff_argv file_path); EvOpenRead file_path].

(** ** Commit commands in a trace *)

Fixpoint argv_eqb (a b : list string) : bool :=
  match a, b with
  | [], [] => true
  | x :: a', y :: b' => String.eqb x y && argv_eqb a' b'
  | _, _ => false
  end.

(** Whether an event starts [git commit ...]. *)
Definition is_commit (e : event) : bool :=
  match e with
  | EvSpawn argv => argv_eqb (firstn 2 argv) ["git"; "commit"]
  | _ => false
  end.

Definition commits (t : list event) : list event := filter is_commit t.

(** ** Sample worlds *)

(** A repository with [foo.txt] staged, a key in the environment, and the
    given behaviour of git's executable, of the service and of the user. *)
Definition sample_world (git_installed : bool)
    (service : string + list content_block) (answer : string) : world :=
  {| getenv := fun name =>
       if String.eqb name "ANTHROPIC_API_KEY" then Some "sk-ant-test" else None;
     anthropic_new := fun _ => None;
     subprocess := fun argv =>
       if negb git_installed then NotSpawned
       else if argv_eqb argv list_staged_argv then Exited0 ("foo.txt" ++ nl)
       else if argv_eqb argv (diff_argv "foo.txt") then Exited0 "+hello"
       else Exited0 "";
     read_text := fun _ => Some "hello";
     open_w := fun _ => true;
     messages_create := fun _ => service;
     stdin_line := Some answer |}.

(** No key in the environment; everything else as in [sample_world]. *)
Definition keyless_world : world :=
  {| getenv := fun _ => None;
     anthropic_new := fun _ => None;
     subprocess := subprocess (sample_world true (inl "") "y");
     read_text := fun _ => Some "hello";
     open_w := fun _ => true;
     messages_create := fun _ => inl "";
     stdin_line := Some "y" |}.

(** A repository with nothing staged. *)
Definition clean_world : world :=
  {| getenv := getenv (sample_world true (inl "") "y");
     anthropic_new := fun _ => None;
     subprocess := fun _ => Exited0 "";
     read_text := fun _ => None;
     open_w := fun _ => true;
     messages_create := fun _ => inl "";
     stdin_line := Some "y" |}.

(** Two staged files, the second of which cannot be read. *)
Definition unreadable_world : world :=
  {| getenv := getenv (sample_world true (inl "") "y");
     anthropic_new := fun _ => None;
     subprocess := fun argv =>
       if argv_eqb argv list_staged_argv
       then Exited0 ("a.txt" ++ nl ++ "logo.png" ++ nl)
       else Exited0 "";
     read_text := fun file =>
       if String.eqb file "a.txt" then Some "text" else None;
     open_w := fun _ => true;
     messages_create := fun _ => inl "";
     stdin_line := Some "n" |}.

(** A run in which the hook of the repository rejects the commit: as
    [sample_world], but [git commit] ends with a non-zero exit status. *)
Definition rejecting_world (service : string + list content_block)
    (answer : string) : world :=
  {| getenv := getenv (sample_world true service answer);
     anthropic_new := fun _ => None;
     subprocess := fun argv =>
       if is_commit (EvSpawn argv) then ExitedNonZero
       else subprocess (sample_world true service answer) argv;
     read_text := fun _ => Some "hello";
     open_w := fun _ => true;
     messages_create := fun _ => service;
     stdin_line := Some answer |}.

(** ** The events of a run up to the confirmation *)

(** What [run] does between the collection and the answer when the service
    replies with a text block first: the request, the heading, the message
    between triple quotes, the question. *)
Definition asking_events (changes : list ChangeRecord) (text : string)
    : list event :=
  [ EvMessagesCreate "claude-3-5-sonnet-latest" 1000
      (prepare_claude_prompt changes);
    EvPrint (nl ++ "Suggested commit message:");
    EvPrint (triple_quote ++ nl ++ text ++ nl ++ triple_quote);
    EvInput (nl ++ "Do you want to create this commit? (y/n/e[edit]): ") ].

(** The three branches on the answer, as [run] takes them once
    [commit_message] is a list of blocks that starts with a text block. *)
Definition answer_branch (w : world) (text : string)
    (more : list content_block) (confirmation : string) : M unit :=
  if String.eqb (lower confirmation) "y" then create_commit w text
  else if String.eqb (lower confirmation) "e" then
    write_file w ".git/COMMIT_EDITMSG" (Blocks (TextBlock text :: more)) ;;
    subprocess_run w commit_edit_argv
  else print "Commit cancelled".

(** ** Every run at a glance *)

Definition request_event (changes : list ChangeRecord) : event :=
  EvMessagesCreate "claude-3-5-sonnet-latest" 1000
    (prepare_claude_prompt changes).

Definition heading_event : event :=
  EvPrint (nl ++ "Suggested commit message:").

(** The rest of a run once the collection has returned [changes]. *)
Definition after_collect (w : world) (changes : list ChangeRecord) : M unit :=
  match changes with
  | [] => (Raise (SystemExit 0), [EvPrint "No changes staged for commit"])
  | _ :: _ =>
      match messages_create w (prepare_claude_prompt changes) with
      | inl msg =>
          (Raise AttributeError,
           [request_event changes;
            EvPrint ("Error calling Claude API: " ++ msg);
            heading_event])
      | inr [] => (Raise IndexError, [request_event changes; heading_event])
      | inr (OtherBlock :: _) =>
          (Raise AttributeError, [request_event changes; heading_event])
      | inr (TextBlock text :: more) =>
          match stdin_line w with
          | None => (Raise EOFError, asking_events changes text)
          | Some answer =>
              (outcome (answer_branch w text more answer),
               (asking_events changes text
                ++ trace (answer_branch w text more answer))%list)
          end
      end
  end.

(** A whole run, case by case. *)
Definition run_summary (w : world) : M unit :=
  match anthropic_new w (getenv w "ANTHROPIC_API_KEY") with
  | Some msg => (Raise (AnthropicError msg), [])
  | None =>
      if env_missing w "ANTHROPIC_API_KEY" then
        (Raise (SystemExit 1),
         [EvPrint "Error: ANTHROPIC_API_KEY environment variable not set"])
      else
        match get_staged_changes w with
        | (Raise e, collecting) => (Raise e, collecting)
        | (Ret changes, collecting) =>
            (outcome (after_collect w changes),
             (collecting ++ trace (after_collect w changes))%list)
        end
  end.

(** The requests to the generation service among the events of a trace. *)
Definition is_request (e : event) : bool :=
  match e with
  | EvMessagesCreate _ _ _ => true
  | _ => false
  end.

Definition requests (t : list event) : list event := filter is_request t.

(** ** Lines of a listing *)

(** Whether a character occurs in a string. *)
Fixpoint has_char (c : ascii) (s : string) : bool :=
  match s with
  | EmptyString => false
  | String c' rest => Ascii.eqb c' c || has_char c rest
  end.

(** A file name git can list on a line of its own: not empty, and
    without a line feed. *)
Definition line_name (p : string) : bool :=
  truthy p && negb (has_char "010"%char p).

(** What [git diff --cached --name-only] prints for the given names: one
    per line, each line ended by a line feed. *)
Definition listing_of (names : list string) : string :=
  join (map (fun p => p ++ nl) names).

(** Two staged files; git's diff query fails on the second. *)
Definition broken_diff_world : world :=
  {| getenv := getenv (sample_world true (inl "") "y");
     anthropic_new := fun _ => None;
     subprocess := fun argv =>
       if argv_eqb argv list_staged_argv
       then Exited0 (listing_of ["a.txt"; "b.txt"])
       else if argv_eqb argv (diff_argv "b.txt") then ExitedNonZero
       else Exited0 "+a";
     read_text := fun _ => Some "a";
     open_w := fun _ => true;
     messages_create := fun _ => inr [TextBlock "Add a"];
     stdin_line := Some "y" |}.

(** Not inside a repository: every git query ends with a non-zero exit
    status. *)
Definition outside_repository_world : world :=
  {| getenv := getenv (sample_world true (inl "") "y");
     anthropic_new := fun _ => None;
     subprocess := fun _ => ExitedNonZero;
     read_text := fun _ => None;
     open_w := fun _ => true;
     messages_create := fun _ => inr [TextBlock "Add a"];
     stdin_line := Some "y" |}.

(** The key is set to the empty string. *)
Definition empty_key_world : world :=
  {| getenv := fun name =>
       if String.eqb name "ANTHROPIC_API_KEY" then Some "" else None;
     anthropic_new := fun _ => None;
     subprocess := subprocess (sample_world true (inl "") "y");
     read_text := fun _ => Some "hello";
     open_w := fun _ => true;
     messages_create := fun _ => inr [TextBlock "Add greeting"];
     stdin_line := Some "y" |}.

(** Standard input is closed: [input] meets the end of file. *)
Definition unattended_world : world :=
  {| getenv := getenv (sample_world true (inl "") "y");
     anthropic_new := fun _ => None;
     subprocess := subprocess (sample_world true (inl "") "y");
     read_text := fun _ => Some "hello";
     open_w := fun _ => true;
     messages_create := fun _ => inr [TextBlock "Add greeting"];
     stdin_line := None |}.

(** ** The size of a prompt *)

(** The characters one change adds to the prompt besides its three fields:
    ["File: "], ["Diff:"], ["Current file content:"] and five line feeds. *)
Definition block_overhead : nat := 38.

Definition block_size (r : ChangeRecord) : nat :=
  block_overhead + String.length (path r) + String.length (diff r)
  + String.length (content r).

(** * Properties *)

(** ** Strings *)

Lemma append_assoc (a b c : string) : (a ++ b) ++ c = a ++ (b ++ c).
Proof.
  induction a as [|x a IH]; simpl; [reflexivity|].
  now rewrite IH.
Qed.

Lemma append_nil_r (a : string) : a ++ "" = a.
Proof.
  induction a as [|x a IH]; simpl; [reflexivity|].
  now rewrite IH.
Qed.

Lemma join_app (xs ys : list string) : join (xs ++ ys)%list = join xs ++ join ys.
Proof.
  induction xs as [|x xs IH]; simpl; [reflexivity|].
  now rewrite IH, append_assoc.
Qed.

(** [str_of_nat] writes the decimal numeral of its argument: reading the
    digits back gives the number. *)
Lemma str_of_nat_decimal (n : nat) :
  option_map Nat.of_uint (NilEmpty.uint_of_string (str_of_nat n)) = Some n.
Proof.
  unfold str_of_nat.
  rewrite NilEmpty.usu; simpl.
  now rewrite DecimalNat.Unsigned.of_to.
Qed.

(** ** Fallback generator *)

(** C2: on a list of exactly one change with path [p] the fallback message
    is ["Update "] followed by [p]; on a list of any other length [N] it is
    ["Update N files"] with [N] in decimal; either way the call returns
    (no exception) and touches nothing outside (no event, so no network
    access). *)
Theorem generate_fallback_message_spec (changes : list ChangeRecord) :
  (forall r, changes = [r] ->
     generate_fallback_message changes = (Ret ("Update " ++ path r), []))
  /\ (List.length changes <> 1 ->
      generate_fallback_message changes
      = (Ret ("Update " ++ str_of_nat (List.length changes) ++ " files"), [])).
Proof.
  split.
  - intros r ->. reflexivity.
  - intros Hlen. unfold generate_fallback_message.
    destruct (Nat.eqb_spec (List.length changes) 1) as [E|_]; [contradiction|].
    reflexivity.
Qed.

Lemma generate_fallback_message_spec_witness :
  generate_fallback_message [("foo.txt", "+a", "a")]
  = (Ret "Update foo.txt", [])
  /\ generate_fallback_message
       [("a.py", "", ""); ("b.py", "", ""); ("c.py", "", "")]
     = (Ret "Update 3 files", []).
Proof.
  split.
  - exact (proj1 (generate_fallback_message_spec [("foo.txt", "+a", "a")])
             ("foo.txt", "+a", "a") eq_refl).
  - refine (proj2 (generate_fallback_message_spec
              [("a.py", "", ""); ("b.py", "", ""); ("c.py", "", "")]) _).
    simpl; lia.
Defined.

Lemma generate_fallback_message_returns (changes : list ChangeRecord) :
  generate_fallback_message changes = (Ret (fallback_text changes), []).
Proof.
  destruct changes as [|r [|r' rest]]; reflexivity.
Qed.

(** C10: on the empty list the fallback generator returns
    ["Update 0 files"], and on every list it returns a string, with no
    exception and no event. *)
Theorem generate_fallback_message_total :
  generate_fallback_message [] = (Ret "Update 0 files", [])
  /\ forall changes : list ChangeRecord,
       exists message : string,
         generate_fallback_message changes = (Ret message, []).
Proof.
  split; [reflexivity|].
  intros changes. exists (fallback_text changes).
  apply generate_fallback_message_returns.
Qed.

(** ** Prompt builder *)

Lemma prompt_step_block (prompt : string) (r : ChangeRecord) :
  prompt_step prompt r = prompt ++ record_block r.
Proof.
  destruct r as [[file_path d] c].
  unfold prompt_step, record_block, path, diff, content; simpl fst; simpl snd.
  now rewrite !append_assoc.
Qed.

(** The loop appends one block per change, in the order of the list. *)
Lemma fold_prompt_step (changes : list ChangeRecord) (prompt : string) :
  fold_left prompt_step changes prompt
  = prompt ++ join (map record_block changes).
Proof.
  revert prompt.
  induction changes as [|r changes IH]; intros prompt; simpl.
  - now rewrite append_nil_r.
  - now rewrite IH, prompt_step_block, append_assoc.
Qed.

Lemma prepare_claude_prompt_blocks (changes : list ChangeRecord) :
  prepare_claude_prompt changes
  = prompt_header ++ join (map record_block changes) ++ prompt_closing.
Proof.
  unfold prepare_claude_prompt.
  now rewrite fold_prompt_step, append_assoc.
Qed.

Lemma fill_record_layout (changes : list ChangeRecord) (i : nat)
    (r : ChangeRecord) :
  nth_error changes i = Some r ->
  join (map (fill changes) (record_layout i)) = record_block r.
Proof.
  intros Hi. unfold record_layout, record_block.
  cbn [map join fill]. rewrite Hi. cbn [field_of].
  now rewrite !append_assoc, append_nil_r.
Qed.

Lemma fill_layout_from (pre rest : list ChangeRecord) :
  join (map (fill (pre ++ rest))
          (flat_map record_layout (seq (List.length pre) (List.length rest))))
  = join (map record_block rest).
Proof.
  revert pre.
  induction rest as [|r rest IH]; intros pre; [reflexivity|].
  cbn [List.length seq flat_map].
  rewrite map_app, join_app.
  rewrite (fill_record_layout _ _ r).
  - cbn [map join]. f_equal.
    specialize (IH (pre ++ [r])%list).
    rewrite <- app_assoc, length_app, Nat.add_1_r in IH.
    exact IH.
  - rewrite nth_error_app2 by lia.
    now rewrite Nat.sub_diag.
Qed.

Lemma slots_app (xs ys : list piece) :
  slots (xs ++ ys) = (slots xs ++ slots ys)%list.
Proof.
  unfold slots. apply flat_map_app.
Qed.

Lemma slots_records (indices : list nat) :
  slots (flat_map record_layout indices) = flat_map record_slots indices.
Proof.
  induction indices as [|i indices IH]; [reflexivity|].
  cbn [flat_map]. rewrite slots_app, IH. reflexivity.
Qed.

Lemma count_record_slots_one (a i : nat) (f : field) :
  count_occ slot_eq_dec (record_slots a) (i, f) = if Nat.eqb a i then 1 else 0.
Proof.
  unfold record_slots. cbn [count_occ].
  destruct (Nat.eqb_spec a i) as [->|Hne].
  - destruct f;
      repeat match goal with
             | |- context [slot_eq_dec ?x ?y] =>
                 destruct (slot_eq_dec x y); try congruence
             end.
  - repeat match goal with
           | |- context [slot_eq_dec ?x ?y] =>
               destruct (slot_eq_dec x y); try congruence
           end.
Qed.

Lemma count_record_slots (n a i : nat) (f : field) :
  count_occ slot_eq_dec (flat_map record_slots (seq a n)) (i, f)
  = if Nat.leb a i && Nat.ltb i (a + n) then 1 else 0.
Proof.
  revert a.
  induction n as [|n IH]; intros a.
  - simpl. destruct (Nat.leb_spec a i), (Nat.ltb_spec i (a + 0)); simpl; lia.
  - cbn [seq flat_map]. rewrite count_occ_app, count_record_slots_one, IH.
    destruct (Nat.eqb_spec a i), (Nat.leb_spec (S a) i),
      (Nat.ltb_spec i (S a + n)), (Nat.leb_spec a i),
      (Nat.ltb_spec i (a + S n)); simpl; lia.
Qed.

(** C3: the prompt is the fixed header, then for each change, in the order
    of the list, one block holding its path, its diff and its content, then
    the fixed closing instruction.  In the layout of the prompt every field
    of every change fills exactly one slot, and the slots come change by
    change in input order, path before diff before content. *)
Theorem prepare_claude_prompt_layout (changes : list ChangeRecord) :
  let n := List.length changes in
  prepare_claude_prompt changes
  = prompt_header ++ join (map record_block changes) ++ prompt_closing
  /\ prepare_claude_prompt changes = join (map (fill changes) (prompt_layout n))
  /\ slots (prompt_layout n) = flat_map record_slots (seq 0 n)
  /\ (forall i f, i < n ->
        count_occ slot_eq_dec (slots (prompt_layout n)) (i, f) = 1).
Proof.
  intros n.
  assert (Hslots : slots (prompt_layout n) = flat_map record_slots (seq 0 n)).
  { unfold prompt_layout.
    change (Fixed prompt_header :: ?l)%list with ([Fixed prompt_header] ++ l)%list.
    rewrite !slots_app, slots_records. cbn [slots flat_map app].
    now rewrite app_nil_r. }
  split; [apply prepare_claude_prompt_blocks|].
  split; [|split; [exact Hslots|]].
  - rewrite prepare_claude_prompt_blocks. unfold prompt_layout.
    cbn [map join fill]. f_equal.
    rewrite map_app, join_app. cbn [map join fill].
    rewrite append_nil_r. f_equal.
    symmetry. exact (fill_layout_from [] changes).
  - intros i f Hi. rewrite Hslots, count_record_slots.
    destruct (Nat.leb_spec 0 i), (Nat.ltb_spec i (0 + n)); simpl; lia.
Qed.

Lemma prepare_claude_prompt_layout_witness :
  prepare_claude_prompt [("a.py", "+x", "x"); ("b.py", "-y", "")]
  = prompt_header
    ++ join (map record_block [("a.py", "+x", "x"); ("b.py", "-y", "")])
    ++ prompt_closing
  /\ prepare_claude_prompt [("a.py", "+x", "x"); ("b.py", "-y", "")]
     = join (map (fill [("a.py", "+x", "x"); ("b.py", "-y", "")])
               (prompt_layout 2))
  /\ slots (prompt_layout 2)
     = [(0, FPath); (0, FDiff); (0, FContent);
        (1, FPath); (1, FDiff); (1, FContent)]
  /\ (forall i f, i < 2 ->
        count_occ slot_eq_dec (slots (prompt_layout 2)) (i, f) = 1).
Proof.
  exact (prepare_claude_prompt_layout [("a.py", "+x", "x"); ("b.py", "-y", "")]).
Defined.

(** The prompt for one staged file, in full. *)
Example prepare_claude_prompt_one :
  prepare_claude_prompt [("foo.txt", "+hello", "hello")]
  = prompt_header
    ++ "File: foo.txt" ++ nl
    ++ "Diff:" ++ nl ++ "+hello" ++ nl
    ++ "Current file content:" ++ nl ++ "hello" ++ nl ++ nl
    ++ nl
    ++ "Based on these changes, generate a commit message that explains what was changed and why.".
Proof. reflexivity. Qed.

(** ** Where an event of a trace comes from *)

Lemma in_trace_bind {A B} (m : M A) (k : A -> M B) (e : event) :
  In e (trace (bind m k)) ->
  In e (trace m) \/ exists a, outcome m = Ret a /\ In e (trace (k a)).
Proof.
  destruct m as [[a|x] t]; unfold bind, trace, outcome; simpl.
  - destruct (k a) as [r t'] eqn:Hk; simpl.
    intros H. apply in_app_or in H. destruct H as [H|H]; [now left|].
    right. exists a. rewrite Hk. now split.
  - now left.
Qed.

Lemma in_trace_try_except {A} (body : M A) (catches : exn -> bool)
    (handler : exn -> M A) (e : event) :
  In e (trace (try_except body catches handler)) ->
  In e (trace body)
  \/ exists x, outcome body = Raise x /\ catches x = true
               /\ In e (trace (handler x)).
Proof.
  destruct body as [[a|x] t]; unfold try_except, trace, outcome; simpl.
  - now left.
  - destruct (catches x) eqn:Hc; [|now left].
    destruct (handler x) as [r t'] eqn:Hh; simpl.
    intros H. apply in_app_or in H. destruct H as [H|H]; [now left|].
    right. exists x. rewrite Hh. now repeat split.
Qed.

Section Traces.

Variable w : world.

Lemma in_trace_check_output (argv : list string) (e : event) :
  In e (trace (check_output w argv)) -> e = EvSpawn argv.
Proof.
  unfold check_output.
  destruct (subprocess w argv); simpl; intros [H|[]]; now symmetry.
Qed.

Lemma in_trace_subprocess_run (argv : list string) (e : event) :
  In e (trace (subprocess_run w argv)) -> e = EvSpawn argv.
Proof.
  unfold subprocess_run.
  destruct (subprocess w argv); simpl; intros [H|[]]; now symmetry.
Qed.

Lemma in_trace_read_file (file : string) (e : event) :
  In e (trace (read_file w file)) -> e = EvOpenRead file.
Proof.
  unfold read_file.
  destruct (read_text w file); simpl; intros [H|[]]; now symmetry.
Qed.

Lemma in_trace_collect_one (file_path : string) (changes : list ChangeRecord)
    (e : event) :
  In e (trace (collect_one w file_path changes)) ->
  e = EvSpawn (diff_argv file_path) \/ e = EvOpenRead file_path.
Proof.
  unfold collect_one. intros H.
  apply in_trace_bind in H. destruct H as [H|[d [_ H]]].
  - left. now apply in_trace_check_output.
  - apply in_trace_bind in H. destruct H as [H|[c [_ H]]]; [|destruct H].
    apply in_trace_try_except in H. destruct H as [H|[x [_ [_ []]]]].
    right. now apply in_trace_read_file.
Qed.

Lemma in_trace_for_each_collect (paths : list string)
    (changes : list ChangeRecord) (e : event) :
  In e (trace (for_each paths (collect_one w) changes)) ->
  exists p, e = EvSpawn (diff_argv p) \/ e = EvOpenRead p.
Proof.
  revert changes.
  induction paths as [|p paths IH]; intros changes H; [destruct H|].
  cbn [for_each] in H.
  apply in_trace_bind in H. destruct H as [H|[changes' [_ H]]].
  - exists p. now apply in_trace_collect_one in H.
  - now apply IH in H.
Qed.

(** The collector starts git's two queries, opens staged files for
    reading, and prints its one error message; nothing else. *)
Lemma in_trace_get_staged_changes (e : event) :
  In e (trace (get_staged_changes w)) ->
  e = EvSpawn list_staged_argv
  \/ (exists p, e = EvSpawn (diff_argv p) \/ e = EvOpenRead p)
  \/ e = EvPrint "Error: Not a git repository or git is not installed".
Proof.
  unfold get_staged_changes. intros H.
  apply in_trace_try_except in H. destruct H as [H|[x [_ [_ H]]]].
  - apply in_trace_bind in H. destruct H as [H|[listing [_ H]]].
    + left. now apply in_trace_check_output.
    + apply in_trace_bind in H. destruct H as [H|[changes [_ []]]].
      right; left. now apply in_trace_for_each_collect in H.
  - right; right. destruct H as [H|[]]. now symmetry.
Qed.

Lemma in_trace_get_commit_message (changes : list ChangeRecord) (e : event) :
  In e (trace (get_commit_message_from_claude w changes)) ->
  (exists model max_tokens prompt, e = EvMessagesCreate model max_tokens prompt)
  \/ exists text, e = EvPrint text.
Proof.
  unfold get_commit_message_from_claude, create_message.
  destruct (messages_create w (prepare_claude_prompt changes)) as [msg|blocks].
  - cbn [bind emit raise try_except is_Exception app print].
    rewrite generate_fallback_message_returns. simpl.
    intros [H|[H|[]]]; [left|right]; subst e; eauto.
  - simpl. intros [H|[]]. left; subst e; eauto.
Qed.

Lemma in_trace_create_commit (message : string) (e : event) :
  In e (trace (create_commit w message)) ->
  e = EvSpawn (commit_argv message) \/ exists text, e = EvPrint text.
Proof.
  unfold create_commit, subprocess_run.
  destruct (subprocess w (commit_argv message)); simpl;
    intros H; repeat (destruct H as [H|H]; [subst e; eauto|]); destruct H.
Qed.

(** [commit_message[0].text] has a value for a list of blocks only. *)
Lemma first_text_ret (m : commit_message) (text : string) :
  outcome (first_text m) = Ret text ->
  exists more, m = Blocks (TextBlock text :: more).
Proof.
  destruct m as [[|[t|] more]|[|c s]]; simpl; try discriminate.
  intros H. injection H as ->. now exists more.
Qed.

(** Writing a list of blocks to the scratch file never returns. *)
Lemma write_file_blocks (file : string) (blocks : list content_block) :
  outcome (write_file w file (Blocks blocks)) = Raise TypeError
  \/ outcome (write_file w file (Blocks blocks)) = Raise OSError.
Proof.
  unfold write_file. destruct (open_w w file); simpl; auto.
Qed.

Lemma in_trace_write_file (file : string) (m : commit_message) (e : event) :
  In e (trace (write_file w file m)) ->
  e = EvOpenWrite file \/ exists text, e = EvFileWrite file text.
Proof.
  unfold write_file, file_write.
  destruct (open_w w file), m; simpl;
    intros H; repeat (destruct H as [H|H]; [subst e; eauto|]); destruct H.
Qed.

End Traces.

Lemma trace_init (w : world) : trace (init w) = [].
Proof.
  unfold init. destruct (anthropic_new w _); reflexivity.
Qed.

Lemma trace_first_text (m : commit_message) : trace (first_text m) = [].
Proof.
  destruct m as [[|[t|] more]|[|c s]]; reflexivity.
Qed.

(** The commit commands among the events of a trace. *)
Lemma commits_app (t1 t2 : list event) :
  commits (t1 ++ t2) = (commits t1 ++ commits t2)%list.
Proof.
  unfold commits. apply filter_app.
Qed.

Lemma commits_none (t : list event) :
  (forall e, In e t -> is_commit e = false) -> commits t = [].
Proof.
  induction t as [|e t IH]; intros H; [reflexivity|].
  unfold commits in *. cbn [filter].
  rewrite (H e (or_introl eq_refl)).
  apply IH. intros e' He'. apply H. now right.
Qed.

Lemma commits_get_staged_changes (w : world) :
  commits (trace (get_staged_changes w)) = [].
Proof.
  apply commits_none. intros e H.
  apply in_trace_get_staged_changes in H.
  destruct H as [->|[[p [->| ->]]| ->]]; reflexivity.
Qed.

(** ** Start-up and the empty index *)

(** C4: with [ANTHROPIC_API_KEY] unset the program ends with a non-zero
    exit status and has started no subprocess at all, whether the client's
    constructor accepts the missing key or raises. *)
Theorem missing_api_key_exits_nonzero (w : world) :
  getenv w "ANTHROPIC_API_KEY" = None ->
  exit_status (outcome (main w)) <> 0%Z
  /\ forall argv, ~ In (EvSpawn argv) (trace (main w)).
Proof.
  intros Hkey.
  unfold main, init, run, env_missing. rewrite Hkey.
  destruct (anthropic_new w None) as [msg|]; simpl.
  - split; [discriminate|]. intros argv [].
  - split; [discriminate|]. intros argv [H|[]]. discriminate H.
Qed.

Lemma missing_api_key_exits_nonzero_witness :
  exit_status (outcome (main keyless_world)) <> 0%Z
  /\ forall argv, ~ In (EvSpawn argv) (trace (main keyless_world)).
Proof.
  apply (missing_api_key_exits_nonzero keyless_world).
  reflexivity.
Defined.

(** C5: when git's listing names no staged file, the program prints its
    notice and ends with exit status 0; the listing is the only subprocess
    it has started (no commit command), and it has sent no request to the
    generation service. *)
Theorem no_staged_files_exits_zero (w : world) (key listing : string) :
  getenv w "ANTHROPIC_API_KEY" = Some key ->
  truthy key = true ->
  anthropic_new w (Some key) = None ->
  subprocess w list_staged_argv = Exited0 listing ->
  staged_paths listing = [] ->
  exit_status (outcome (main w)) = 0%Z
  /\ trace (main w)
     = [EvSpawn list_staged_argv; EvPrint "No changes staged for commit"]
  /\ (forall model max_tokens prompt,
        ~ In (EvMessagesCreate model max_tokens prompt) (trace (main w)))
  /\ (forall argv, In (EvSpawn argv) (trace (main w)) -> argv = list_staged_argv).
Proof.
  intros Hkey Htruthy Hnew Hlist Hnone.
  assert (Hmain : main w
                  = (Raise (SystemExit 0),
                     [EvSpawn list_staged_argv;
                      EvPrint "No changes staged for commit"])).
  { unfold main, init, run, env_missing. rewrite Hkey, Hnew, Htruthy.
    unfold get_staged_changes, check_output. rewrite Hlist.
    cbn [bind emit ret app try_except negb].
    fold (staged_paths listing). rewrite Hnone. reflexivity. }
  rewrite Hmain. cbn [outcome trace fst snd exit_status].
  split; [reflexivity|]. split; [reflexivity|]. split.
  - intros model max_tokens prompt [H|[H|[]]]; discriminate H.
  - intros argv [H|[H|[]]]; [now injection H|discriminate H].
Qed.

Lemma no_staged_files_exits_zero_witness :
  exit_status (outcome (main clean_world)) = 0%Z
  /\ trace (main clean_world)
     = [EvSpawn list_staged_argv; EvPrint "No changes staged for commit"]
  /\ (forall model max_tokens prompt,
        ~ In (EvMessagesCreate model max_tokens prompt)
            (trace (main clean_world)))
  /\ (forall argv,
        In (EvSpawn argv) (trace (main clean_world)) -> argv = list_staged_argv).
Proof.
  apply (no_staged_files_exits_zero clean_world "sk-ant-test" "");
    reflexivity.
Defined.

(** ** Change collection *)

Section Collector.

Variable w : world.

(** One turn of the loop, when the diff query for the path succeeds: the
    record is appended whether or not the file can be read. *)
Lemma collect_one_ok (file_path : string) (changes : list ChangeRecord)
    (text : string) :
  subprocess w (diff_argv file_path) = Exited0 text ->
  collect_one w file_path changes
  = (Ret (changes ++ [collected w file_path])%list, collect_events file_path).
Proof.
  intros Hdiff.
  unfold collect_one, collected, collect_events, check_output, read_file.
  rewrite Hdiff.
  destruct (read_text w file_path) as [body|]; reflexivity.
Qed.

Lemma for_each_collect_ok (paths : list string) (changes : list ChangeRecord) :
  (forall p, In p paths -> exists text, subprocess w (diff_argv p) = Exited0 text) ->
  for_each paths (collect_one w) changes
  = (Ret (changes ++ map (collected w) paths)%list,
     flat_map collect_events paths).
Proof.
  revert changes.
  induction paths as [|p paths IH]; intros changes Hdiffs.
  - simpl. now rewrite app_nil_r.
  - destruct (Hdiffs p (or_introl eq_refl)) as [text Hp].
    cbn [for_each]. rewrite (collect_one_ok _ _ _ Hp).
    unfold bind. rewrite IH by (intros q Hq; apply Hdiffs; now right).
    cbn [map flat_map]. now rewrite <- app_assoc.
Qed.

Lemma get_staged_changes_ok (listing : string) :
  subprocess w list_staged_argv = Exited0 listing ->
  (forall p, In p (staged_paths listing) ->
     exists text, subprocess w (diff_argv p) = Exited0 text) ->
  get_staged_changes w
  = (Ret (map (collected w) (staged_paths listing)),
     EvSpawn list_staged_argv :: flat_map collect_events (staged_paths listing)).
Proof.
  intros Hlist Hdiffs.
  unfold get_staged_changes, check_output. rewrite Hlist.
  cbn [bind emit ret app].
  fold (staged_paths listing).
  rewrite (for_each_collect_ok _ [] Hdiffs).
  cbn [bind ret try_except app]. now rewrite app_nil_r.
Qed.

Lemma collect_events_no_print (paths : list string) (text : string) :
  ~ In (EvPrint text) (flat_map collect_events paths).
Proof.
  rewrite in_flat_map. intros [p [_ [H|[H|[]]]]]; discriminate H.
Qed.

End Collector.

(** C7: when git's queries succeed, the collection returns one record per
    staged path, in the listing's order; the record of a path whose content
    cannot be read has the empty string as content (and the text that was
    read otherwise), and the collection prints nothing. *)
Theorem unreadable_content_is_empty (w : world) (listing : string) :
  subprocess w list_staged_argv = Exited0 listing ->
  (forall p, In p (staged_paths listing) ->
     exists text, subprocess w (diff_argv p) = Exited0 text) ->
  exists changes : list ChangeRecord,
    outcome (get_staged_changes w) = Ret changes
    /\ map path changes = staged_paths listing
    /\ (forall r, In r changes ->
          match read_text w (path r) with
          | None => content r = EmptyString
          | Some text => content r = text
          end)
    /\ (forall text, ~ In (EvPrint text) (trace (get_staged_changes w))).
Proof.
  intros Hlist Hdiffs.
  exists (map (collected w) (staged_paths listing)).
  rewrite (get_staged_changes_ok w listing Hlist Hdiffs).
  cbn [outcome trace fst snd].
  split; [reflexivity|]. split; [|split].
  - rewrite map_map. unfold collected, path; simpl. apply map_id.
  - intros r Hr. apply in_map_iff in Hr. destruct Hr as [p [<- _]].
    unfold collected, path, content; simpl.
    destruct (read_text w p); reflexivity.
  - intros text [H|H]; [discriminate H|].
    exact (collect_events_no_print _ _ H).
Qed.

Lemma unreadable_content_is_empty_witness :
  exists changes : list ChangeRecord,
    outcome (get_staged_changes unreadable_world) = Ret changes
    /\ map path changes = ["a.txt"; "logo.png"]
    /\ (forall r, In r changes ->
          match read_text unreadable_world (path r) with
          | None => content r = EmptyString
          | Some text => content r = text
          end)
    /\ (forall text,
          ~ In (EvPrint text) (trace (get_staged_changes unreadable_world))).
Proof.
  apply (unreadable_content_is_empty unreadable_world
           ("a.txt" ++ nl ++ "logo.png" ++ nl)).
  - reflexivity.
  - intros p _. unfold unreadable_world, subprocess.
    destruct (argv_eqb (diff_argv p) list_staged_argv); eexists; reflexivity.
Defined.

(** ** Repository errors *)

(** A git query that ends with a non-zero exit status is reported with the
    program's own message, and the program exits with status 1. *)
Lemma git_query_failure_is_reported (w : world) (key : string) :
  getenv w "ANTHROPIC_API_KEY" = Some key ->
  truthy key = true ->
  anthropic_new w (Some key) = None ->
  subprocess w list_staged_argv = ExitedNonZero ->
  main w
  = (Raise (SystemExit 1),
     [EvSpawn list_staged_argv;
      EvPrint "Error: Not a git repository or git is not installed"]).
Proof.
  intros Hkey Htruthy Hnew Hlist.
  unfold main, init, run, env_missing. rewrite Hkey, Hnew, Htruthy.
  unfold get_staged_changes, check_output. rewrite Hlist. reflexivity.
Qed.

(** When git's executable cannot be started, the listing query raises an
    [OSError] that nothing catches. *)
Lemma git_unavailable_always_raises (w : world) (key : string) :
  getenv w "ANTHROPIC_API_KEY" = Some key ->
  truthy key = true ->
  anthropic_new w (Some key) = None ->
  subprocess w list_staged_argv = NotSpawned ->
  main w = (Raise OSError, [EvSpawn list_staged_argv]).
Proof.
  intros Hkey Htruthy Hnew Hlist.
  unfold main, init, run, env_missing. rewrite Hkey, Hnew, Htruthy.
  unfold get_staged_changes, check_output. rewrite Hlist. reflexivity.
Qed.

(** C8, at a failing input: git's executable cannot be started.  The
    listing query raises an [OSError], which the handler for
    [CalledProcessError] does not catch: the program prints none of its
    messages and ends on the interpreter's traceback (exit status 1). *)
Theorem git_unavailable_shows_traceback :
  let w := sample_world false (inr [TextBlock "Add greeting"]) "y" in
  main w = (Raise OSError, [EvSpawn list_staged_argv])
  /\ traceback (outcome (main w)) = true
  /\ exit_status (outcome (main w)) = 1%Z
  /\ (forall text, ~ In (EvPrint text) (trace (main w))).
Proof.
  cbv zeta.
  assert (H : main (sample_world false (inr [TextBlock "Add greeting"]) "y")
              = (Raise OSError, [EvSpawn list_staged_argv]))
    by (vm_compute; reflexivity).
  rewrite H. cbn [outcome trace fst snd].
  repeat split.
  intros text [E|[]]. discriminate E.
Qed.

(** ** Generation failure *)

Lemma fallback_text_first_char (changes : list ChangeRecord) :
  exists rest, fallback_text changes = String "U" rest.
Proof.
  destruct changes as [|r [|r' more]]; eexists; reflexivity.
Qed.

(** Whatever the changes, [commit_message[0].text] on the fallback string
    is an [AttributeError]: the string is never empty, and its first
    character has no [text]. *)
Lemma first_text_fallback (changes : list ChangeRecord) :
  first_text (Plain (fallback_text changes)) = (Raise AttributeError, []).
Proof.
  destruct (fallback_text_first_char changes) as [rest ->]. reflexivity.
Qed.

Lemma get_commit_message_failure (w : world) (changes : list ChangeRecord)
    (msg : string) :
  messages_create w (prepare_claude_prompt changes) = inl msg ->
  get_commit_message_from_claude w changes
  = (Ret (Plain (fallback_text changes)),
     [EvMessagesCreate "claude-3-5-sonnet-latest" 1000
        (prepare_claude_prompt changes);
      EvPrint ("Error calling Claude API: " ++ msg)]).
Proof.
  intros Hfail.
  unfold get_commit_message_from_claude, create_message. rewrite Hfail.
  cbn [bind emit raise try_except is_Exception app print str_exn].
  rewrite generate_fallback_message_returns. reflexivity.
Qed.

(** With a key, staged changes and a failing service, [run] stops at the
    line that shows the message: the fallback string is built, but neither
    shown, nor confirmed, nor committed. *)
Lemma generation_failure_always_raises (w : world) (key msg : string)
    (changes : list ChangeRecord) (collecting : list event) :
  getenv w "ANTHROPIC_API_KEY" = Some key ->
  truthy key = true ->
  anthropic_new w (Some key) = None ->
  get_staged_changes w = (Ret changes, collecting) ->
  changes <> [] ->
  messages_create w (prepare_claude_prompt changes) = inl msg ->
  main w
  = (Raise AttributeError,
     (collecting
      ++ [EvMessagesCreate "claude-3-5-sonnet-latest" 1000
            (prepare_claude_prompt changes);
          EvPrint ("Error calling Claude API: " ++ msg);
          EvPrint (nl ++ "Suggested commit message:")])%list).
Proof.
  intros Hkey Htruthy Hnew Hcollect Hne Hfail.
  unfold main, init, run, env_missing.
  rewrite Hkey, Hnew, Htruthy, Hcollect.
  destruct changes as [|r rest]; [contradiction|].
  cbn [bind ret negb app].
  rewrite (get_commit_message_failure w _ msg Hfail).
  cbn [bind ret app print emit].
  rewrite first_text_fallback. reflexivity.
Qed.

(** C1, at a failing input: [foo.txt] is staged and the service raises.
    The fallback generator yields ["Update foo.txt"], and that is what
    [get_commit_message_from_claude] returns; but [run] then raises an
    [AttributeError] on [commit_message[0].text], after the heading
    ["Suggested commit message:"] and before any message is shown, so the
    fallback message is neither displayed nor passed to a commit. *)
Theorem generation_failure_crashes_before_display :
  let w := sample_world true (inl "service unavailable") "y" in
  let changes := [("foo.txt", "+hello", "hello")] in
  outcome (get_staged_changes w) = Ret changes
  /\ generate_fallback_message changes = (Ret "Update foo.txt", [])
  /\ outcome (get_commit_message_from_claude w changes)
     = Ret (Plain "Update foo.txt")
  /\ main w
     = (Raise AttributeError,
        [EvSpawn list_staged_argv;
         EvSpawn (diff_argv "foo.txt");
         EvOpenRead "foo.txt";
         EvMessagesCreate "claude-3-5-sonnet-latest" 1000
           (prepare_claude_prompt changes);
         EvPrint "Error calling Claude API: service unavailable";
         EvPrint (nl ++ "Suggested commit message:")])
  /\ traceback (outcome (main w)) = true.
Proof.
  repeat split; vm_compute; reflexivity.
Qed.

(** C6, at a failing input: the service raises and the user would answer
    ["Y"].  [run] raises before it reads the answer: no confirmation is
    asked for and no [git commit -m] is started, with the fallback message
    or any other. *)
Theorem accept_after_generation_failure_commits_nothing :
  let w := sample_world true (inl "service unavailable") "Y" in
  outcome (main w) = Raise AttributeError
  /\ commits (trace (main w)) = []
  /\ (forall prompt, ~ In (EvInput prompt) (trace (main w)))
  /\ (forall message, ~ In (EvSpawn (commit_argv message)) (trace (main w))).
Proof.
  cbv zeta.
  rewrite (generation_failure_always_raises
             (sample_world true (inl "service unavailable") "Y")
             "sk-ant-test" "service unavailable"
             [("foo.txt", "+hello", "hello")]
             [EvSpawn list_staged_argv; EvSpawn (diff_argv "foo.txt");
              EvOpenRead "foo.txt"]);
    try reflexivity; try discriminate.
  cbn [outcome trace fst snd app].
  split; [reflexivity|]. split; [reflexivity|]. split.
  - intros prompt H. repeat (destruct H as [H|H]; [discriminate H|]). exact H.
  - intros message H. repeat (destruct H as [H|H]; [discriminate H|]). exact H.
Qed.

(** On the success path, Accept starts the commit command exactly once,
    with the text of the first block of the response (the text that was
    shown) as its message argument. *)
Lemma accept_commits_once_on_success (w : world) (key text answer : string)
    (changes : list ChangeRecord) (more : list content_block) :
  getenv w "ANTHROPIC_API_KEY" = Some key ->
  truthy key = true ->
  anthropic_new w (Some key) = None ->
  outcome (get_staged_changes w) = Ret changes ->
  changes <> [] ->
  messages_create w (prepare_claude_prompt changes)
  = inr (TextBlock text :: more) ->
  stdin_line w = Some answer ->
  lower answer = "y" ->
  commits (trace (main w)) = [EvSpawn (commit_argv text)]
  /\ In (EvPrint (triple_quote ++ nl ++ text ++ nl ++ triple_quote))
        (trace (main w)).
Proof.
  intros Hkey Htruthy Hnew Hcollect Hne Hreply Hin Hyes.
  pose proof (commits_get_staged_changes w) as Hnone.
  destruct (get_staged_changes w) as [r collecting] eqn:Hg.
  cbn [outcome trace fst snd] in Hcollect, Hnone. subst r.
  unfold main, init, run, env_missing.
  rewrite Hkey, Hnew, Htruthy, Hg.
  destruct changes as [|c rest]; [contradiction|].
  unfold get_commit_message_from_claude, create_message, input.
  cbn [bind ret negb app]. rewrite Hreply, Hin.
  cbn [bind ret emit try_except app print first_text]. rewrite Hyes.
  cbn [String.eqb Ascii.eqb Bool.eqb bind ret first_text].
  unfold create_commit, subprocess_run.
  destruct (subprocess w (commit_argv text));
    cbn [bind ret raise emit try_except is_CalledProcessError app print
         sys_exit trace snd];
    (split;
     [ rewrite commits_app, Hnone; reflexivity
     | apply in_or_app; right; simpl; auto ]).
Qed.

(** The same on a sample run: the service answers, the user types ["Y"]. *)
Example accept_commits_once_sample :
  commits (trace (main (sample_world true (inr [TextBlock "Add greeting"]) "Y")))
  = [EvSpawn ["git"; "commit"; "-m"; "Add greeting"]].
Proof.
  refine (proj1 (accept_commits_once_on_success
                   (sample_world true (inr [TextBlock "Add greeting"]) "Y")
                   "sk-ant-test" "Add greeting" "Y"
                   [("foo.txt", "+hello", "hello")] []
                   _ _ _ _ _ _ _ _));
    try reflexivity; discriminate.
Qed.

(** ** The Edit answer *)

(** C9, at a failing input: the service answers with one text block and the
    user answers ["e"].  The scratch file is opened for writing, then
    [f.write] is given the list of blocks and raises a [TypeError]: nothing
    is written and [git commit -e] is not started. *)
Theorem edit_raises_before_commit :
  let w := sample_world true (inr [TextBlock "Add greeting"]) "e" in
  let changes := [("foo.txt", "+hello", "hello")] in
  main w
  = (Raise TypeError,
     [EvSpawn list_staged_argv;
      EvSpawn (diff_argv "foo.txt");
      EvOpenRead "foo.txt";
      EvMessagesCreate "claude-3-5-sonnet-latest" 1000
        (prepare_claude_prompt changes);
      EvPrint (nl ++ "Suggested commit message:");
      EvPrint (triple_quote ++ nl ++ "Add greeting" ++ nl ++ triple_quote);
      EvInput (nl ++ "Do you want to create this commit? (y/n/e[edit]): ");
      EvOpenWrite ".git/COMMIT_EDITMSG"])
  /\ (forall text, ~ In (EvFileWrite ".git/COMMIT_EDITMSG" text) (trace (main w)))
  /\ ~ In (EvSpawn commit_edit_argv) (trace (main w)).
Proof.
  cbv zeta.
  match goal with
  | |- ?m = ?v /\ _ => assert (H : m = v) by (vm_compute; reflexivity)
  end.
  rewrite H. cbn [trace snd].
  split; [reflexivity|]. split.
  - intros text E. repeat (destruct E as [E|E]; [discriminate E|]). exact E.
  - intros E. repeat (destruct E as [E|E]; [discriminate E|]). exact E.
Qed.

(** In no world does the program start [git commit -e]: the Edit branch is
    only reached with a list of blocks as [commit_message], and writing
    that list to the scratch file raises. *)
Lemma edit_commit_never_starts (w : world) :
  ~ In (EvSpawn commit_edit_argv) (trace (main w)).
Proof.
  intros H. unfold main in H.
  apply in_trace_bind in H. destruct H as [H|[[] [_ H]]].
  { rewrite trace_init in H. destruct H. }
  unfold run in H.
  apply in_trace_bind in H. destruct H as [H|[[] [_ H]]].
  { destruct (env_missing w _); simpl in H; [|destruct H].
    destruct H as [H|[]]. discriminate H. }
  apply in_trace_bind in H. destruct H as [H|[changes [_ H]]].
  { apply in_trace_get_staged_changes in H.
    destruct H as [H|[[p [H|H]]|H]]; discriminate H. }
  apply in_trace_bind in H. destruct H as [H|[[] [_ H]]].
  { destruct changes; simpl in H; [|destruct H].
    destruct H as [H|[]]. discriminate H. }
  apply in_trace_bind in H. destruct H as [H|[message [_ H]]].
  { apply in_trace_get_commit_message in H.
    destruct H as [[model [n [prompt H]]]|[text H]]; discriminate H. }
  apply in_trace_bind in H. destruct H as [H|[[] [_ H]]].
  { destruct H as [H|[]]. discriminate H. }
  apply in_trace_bind in H. destruct H as [H|[shown [Hshown H]]].
  { rewrite trace_first_text in H. destruct H. }
  apply first_text_ret in Hshown. destruct Hshown as [more ->].
  apply in_trace_bind in H. destruct H as [H|[[] [_ H]]].
  { destruct H as [H|[]]. discriminate H. }
  apply in_trace_bind in H. destruct H as [H|[confirmation [_ H]]].
  { unfold input in H. destruct (stdin_line w); simpl in H;
      destruct H as [H|[]]; discriminate H. }
  destruct (String.eqb (lower confirmation) "y").
  { apply in_trace_bind in H. destruct H as [H|[text [_ H]]]; [destruct H|].
    apply in_trace_create_commit in H.
    destruct H as [H|[t H]]; discriminate H. }
  destruct (String.eqb (lower confirmation) "e").
  - apply in_trace_bind in H. destruct H as [H|[[] [Hwritten _]]].
    + apply in_trace_write_file in H.
      destruct H as [H|[t H]]; discriminate H.
    + destruct (write_file_blocks w ".git/COMMIT_EDITMSG"
                  (TextBlock shown :: more)) as [E|E];
        rewrite E in Hwritten; discriminate Hwritten.
  - destruct H as [H|[]]. discriminate H.
Qed.

(** * Further properties of the script *)

(** ** How results and traces compose *)

Lemma outcome_bind {A B} (m : M A) (k : A -> M B) :
  outcome (bind m k)
  = match outcome m with
    | Ret a => outcome (k a)
    | Raise e => Raise e
    end.
Proof.
  destruct m as [[a|e] t]; unfold bind, outcome; simpl; [|reflexivity].
  destruct (k a); reflexivity.
Qed.

Lemma trace_bind {A B} (m : M A) (k : A -> M B) :
  trace (bind m k)
  = (trace m ++ match outcome m with
                | Ret a => trace (k a)
                | Raise _ => []
                end)%list.
Proof.
  destruct m as [[a|e] t]; unfold bind, outcome, trace; simpl.
  - destruct (k a); reflexivity.
  - now rewrite app_nil_r.
Qed.

Lemma M_eta {A} (m : M A) : m = (outcome m, trace m).
Proof. destruct m; reflexivity. Qed.

(** With a key, staged changes and a reply that starts with a text block,
    a run is the collection, the four events up to the answer, and then
    the branch the answer selects. *)
Lemma run_until_answer (w : world) (key text answer : string)
    (changes : list ChangeRecord) (collecting : list event)
    (more : list content_block) :
  getenv w "ANTHROPIC_API_KEY" = Some key ->
  truthy key = true ->
  anthropic_new w (Some key) = None ->
  get_staged_changes w = (Ret changes, collecting) ->
  changes <> [] ->
  messages_create w (prepare_claude_prompt changes)
  = inr (TextBlock text :: more) ->
  stdin_line w = Some answer ->
  main w
  = (outcome (answer_branch w text more answer),
     (collecting ++ asking_events changes text
      ++ trace (answer_branch w text more answer))%list).
Proof.
  intros Hkey Htruthy Hnew Hcollect Hne Hreply Hin.
  unfold main, init, run, env_missing.
  rewrite Hkey, Hnew, Htruthy, Hcollect.
  destruct changes as [|c rest]; [contradiction|].
  unfold get_commit_message_from_claude, create_message, input.
  cbn [bind ret negb app]. rewrite Hreply, Hin.
  cbn [bind ret emit try_except app print first_text].
  unfold answer_branch.
  destruct (String.eqb (lower answer) "y").
  - destruct (create_commit w text) as [r t]. reflexivity.
  - destruct (String.eqb (lower answer) "e").
    + match goal with
      | |- context [outcome ?m] => destruct m as [r t]
      end. reflexivity.
    + reflexivity.
Qed.

(** ** The Accept and Cancel answers *)

Lemma commits_asking_events (changes : list ChangeRecord) (text : string) :
  commits (asking_events changes text) = [].
Proof. reflexivity. Qed.

Lemma commits_collecting (w : world) (changes : list ChangeRecord)
    (collecting : list event) :
  get_staged_changes w = (Ret changes, collecting) -> commits collecting = [].
Proof.
  intros H. pose proof (commits_get_staged_changes w) as Hnone.
  now rewrite H in Hnone.
Qed.

(** X1: when the service replies and the user answers ["y"] or ["Y"], the
    program starts [git commit -m] with the shown text exactly once, and
    what follows depends on that command alone: on exit status zero the
    success message is printed and the run ends normally; on a non-zero
    status the program prints its error and exits with status 1, without
    the success message; if git cannot be started the [OSError] is not
    caught. *)
Theorem accept_outcome (w : world) (key text answer : string)
    (changes : list ChangeRecord) (collecting : list event)
    (more : list content_block) :
  getenv w "ANTHROPIC_API_KEY" = Some key ->
  truthy key = true ->
  anthropic_new w (Some key) = None ->
  get_staged_changes w = (Ret changes, collecting) ->
  changes <> [] ->
  messages_create w (prepare_claude_prompt changes)
  = inr (TextBlock text :: more) ->
  stdin_line w = Some answer ->
  lower answer = "y" ->
  commits (trace (main w)) = [EvSpawn (commit_argv text)]
  /\ main w
     = match subprocess w (commit_argv text) with
       | Exited0 _ =>
           (Ret tt,
            (collecting ++ asking_events changes text
             ++ [EvSpawn (commit_argv text);
                 EvPrint ("Successfully created commit with message:"
                          ++ nl ++ text)])%list)
       | ExitedNonZero =>
           (Raise (SystemExit 1),
            (collecting ++ asking_events changes text
             ++ [EvSpawn (commit_argv text);
                 EvPrint "Error: Failed to create commit"])%list)
       | NotSpawned =>
           (Raise OSError,
            (collecting ++ asking_events changes text
             ++ [EvSpawn (commit_argv text)])%list)
       end.
Proof.
  intros Hkey Htruthy Hnew Hcollect Hne Hreply Hin Hyes.
  rewrite (run_until_answer w key text answer changes collecting more)
    by assumption.
  unfold answer_branch. rewrite Hyes. cbn [String.eqb Ascii.eqb Bool.eqb].
  cbn [trace snd]. rewrite !commits_app.
  rewrite (commits_collecting w changes collecting Hcollect).
  rewrite commits_asking_events.
  unfold create_commit, subprocess_run.
  destruct (subprocess w (commit_argv text)); split; reflexivity.
Qed.

Lemma accept_outcome_witness :
  commits (trace (main (rejecting_world (inr [TextBlock "Add greeting"]) "Y")))
  = [EvSpawn ["git"; "commit"; "-m"; "Add greeting"]]
  /\ main (rejecting_world (inr [TextBlock "Add greeting"]) "Y")
     = (Raise (SystemExit 1),
        ([EvSpawn list_staged_argv; EvSpawn (diff_argv "foo.txt");
          EvOpenRead "foo.txt"]
         ++ asking_events [("foo.txt", "+hello", "hello")] "Add greeting"
         ++ [EvSpawn ["git"; "commit"; "-m"; "Add greeting"];
             EvPrint "Error: Failed to create commit"])%list).
Proof.
  apply (accept_outcome
           (rejecting_world (inr [TextBlock "Add greeting"]) "Y")
           "sk-ant-test" "Add greeting" "Y"
           [("foo.txt", "+hello", "hello")]
           [EvSpawn list_staged_argv; EvSpawn (diff_argv "foo.txt");
            EvOpenRead "foo.txt"] []);
    try reflexivity; discriminate.
Defined.

(** X2: when the service replies and the user's answer, lower-cased, is
    neither ["y"] nor ["e"] (the empty answer included), the program prints
    ["Commit cancelled"] and ends normally with exit status 0: it starts no
    commit command and opens no file for writing. *)
Theorem cancel_outcome (w : world) (key text answer : string)
    (changes : list ChangeRecord) (collecting : list event)
    (more : list content_block) :
  getenv w "ANTHROPIC_API_KEY" = Some key ->
  truthy key = true ->
  anthropic_new w (Some key) = None ->
  get_staged_changes w = (Ret changes, collecting) ->
  changes <> [] ->
  messages_create w (prepare_claude_prompt changes)
  = inr (TextBlock text :: more) ->
  stdin_line w = Some answer ->
  lower answer <> "y" ->
  lower answer <> "e" ->
  main w
  = (Ret tt,
     (collecting ++ asking_events changes text
      ++ [EvPrint "Commit cancelled"])%list)
  /\ exit_status (outcome (main w)) = 0%Z
  /\ commits (trace (main w)) = []
  /\ (forall file, ~ In (EvOpenWrite file) (trace (main w))).
Proof.
  intros Hkey Htruthy Hnew Hcollect Hne Hreply Hin Hy He.
  rewrite (run_until_answer w key text answer changes collecting more)
    by assumption.
  unfold answer_branch.
  apply String.eqb_neq in Hy, He. rewrite Hy, He.
  cbn [print emit outcome trace fst snd exit_status].
  split; [reflexivity|]. split; [reflexivity|]. split.
  - rewrite !commits_app, commits_asking_events.
    now rewrite (commits_collecting w changes collecting Hcollect).
  - intros file H. apply in_app_or in H. destruct H as [H|H].
    + assert (Hin' : In (EvOpenWrite file) (trace (get_staged_changes w)))
        by now rewrite Hcollect.
      apply in_trace_get_staged_changes in Hin'.
      destruct Hin' as [E|[[p [E|E]]|E]]; discriminate E.
    + repeat (destruct H as [H|H]; [discriminate H|]). exact H.
Qed.

Lemma cancel_outcome_witness :
  main (sample_world true (inr [TextBlock "Add greeting"]) "")
  = (Ret tt,
     ([EvSpawn list_staged_argv; EvSpawn (diff_argv "foo.txt");
       EvOpenRead "foo.txt"]
      ++ asking_events [("foo.txt", "+hello", "hello")] "Add greeting"
      ++ [EvPrint "Commit cancelled"])%list)
  /\ exit_status
       (outcome (main (sample_world true (inr [TextBlock "Add greeting"]) "")))
     = 0%Z
  /\ commits
       (trace (main (sample_world true (inr [TextBlock "Add greeting"]) "")))
     = []
  /\ (forall file,
        ~ In (EvOpenWrite file)
            (trace (main (sample_world true
                            (inr [TextBlock "Add greeting"]) "")))).
Proof.
  apply (cancel_outcome
           (sample_world true (inr [TextBlock "Add greeting"]) "")
           "sk-ant-test" "Add greeting" ""
           [("foo.txt", "+hello", "hello")]
           [EvSpawn list_staged_argv; EvSpawn (diff_argv "foo.txt");
            EvOpenRead "foo.txt"] []);
    try reflexivity; discriminate.
Defined.

(** ** Every run at a glance *)

Lemma get_commit_message_success (w : world) (changes : list ChangeRecord)
    (blocks : list content_block) :
  messages_create w (prepare_claude_prompt changes) = inr blocks ->
  get_commit_message_from_claude w changes
  = (Ret (Blocks blocks), [request_event changes]).
Proof.
  intros Hreply.
  unfold get_commit_message_from_claude, create_message. rewrite Hreply.
  reflexivity.
Qed.

Lemma run_after_collect (w : world) (changes : list ChangeRecord) :
  ((match changes with
    | [] => print "No changes staged for commit" ;; sys_exit 0%Z
    | _ :: _ => ret tt
    end) ;;
   commit_message <- get_commit_message_from_claude w changes ;;
   print (nl ++ "Suggested commit message:") ;;
   shown <- first_text commit_message ;;
   print (triple_quote ++ nl ++ shown ++ nl ++ triple_quote) ;;
   confirmation <- input w (nl ++ "Do you want to create this commit? (y/n/e[edit]): ") ;;
   if String.eqb (lower confirmation) "y" then
     message <- first_text commit_message ;;
     create_commit w message
   else if String.eqb (lower confirmation) "e" then
     write_file w ".git/COMMIT_EDITMSG" commit_message ;;
     subprocess_run w commit_edit_argv
   else
     print "Commit cancelled")
  = after_collect w changes.
Proof.
  unfold after_collect.
  destruct changes as [|c rest]; [reflexivity|].
  destruct (messages_create w (prepare_claude_prompt (c :: rest)))
    as [msg|blocks] eqn:Hreply.
  - cbn [bind ret app].
    rewrite (get_commit_message_failure w _ msg Hreply).
    cbn [bind ret app print emit].
    rewrite first_text_fallback. reflexivity.
  - cbn [bind ret app].
    rewrite (get_commit_message_success w _ blocks Hreply).
    destruct blocks as [|[text|] more]; [reflexivity| |reflexivity].
    unfold input. destruct (stdin_line w) as [answer|]; [|reflexivity].
    cbn [bind ret emit app print first_text].
    unfold answer_branch.
    destruct (String.eqb (lower answer) "y").
    + destruct (create_commit w text) as [r t]. reflexivity.
    + destruct (String.eqb (lower answer) "e"); [|reflexivity].
      match goal with
      | |- context [outcome ?m] => destruct m as [r t]
      end. reflexivity.
Qed.

(** [main] is [run_summary]: a run ends in the constructor, at the key
    check, in the collection, on the empty index, on the first block of
    the reply, at the question, or in the branch of the answer. *)
Lemma main_run_summary (w : world) : main w = run_summary w.
Proof.
  unfold main, init, run, run_summary.
  destruct (anthropic_new w (getenv w "ANTHROPIC_API_KEY")); [reflexivity|].
  destruct (env_missing w "ANTHROPIC_API_KEY"); [reflexivity|].
  cbn [bind ret app].
  destruct (get_staged_changes w) as [[changes|e] collecting]; [|reflexivity].
  pose proof (run_after_collect w changes) as H.
  cbn [bind ret app] in H |- *.
  rewrite H. destruct (after_collect w changes); reflexivity.
Qed.

Lemma create_commit_cases (w : world) (text : string) :
  create_commit w text
  = match subprocess w (commit_argv text) with
    | Exited0 _ =>
        (Ret tt,
         [EvSpawn (commit_argv text);
          EvPrint ("Successfully created commit with message:" ++ nl ++ text)])
    | ExitedNonZero =>
        (Raise (SystemExit 1),
         [EvSpawn (commit_argv text); EvPrint "Error: Failed to create commit"])
    | NotSpawned => (Raise OSError, [EvSpawn (commit_argv text)])
    end.
Proof.
  unfold create_commit, subprocess_run.
  destruct (subprocess w (commit_argv text)); reflexivity.
Qed.

Lemma edit_branch_cases (w : world) (blocks : list content_block) :
  (write_file w ".git/COMMIT_EDITMSG" (Blocks blocks) ;;
   subprocess_run w commit_edit_argv)
  = (Raise (if open_w w ".git/COMMIT_EDITMSG" then TypeError else OSError),
     [EvOpenWrite ".git/COMMIT_EDITMSG"]).
Proof.
  unfold write_file. destruct (open_w w ".git/COMMIT_EDITMSG"); reflexivity.
Qed.

(** The branch of the answer, case by case. *)
Lemma answer_branch_cases (w : world) (text answer : string)
    (more : list content_block) :
  (lower answer = "y" /\ answer_branch w text more answer = create_commit w text)
  \/ (lower answer = "e"
      /\ answer_branch w text more answer
         = (Raise (if open_w w ".git/COMMIT_EDITMSG" then TypeError else OSError),
            [EvOpenWrite ".git/COMMIT_EDITMSG"]))
  \/ (lower answer <> "y" /\ lower answer <> "e"
      /\ answer_branch w text more answer
         = (Ret tt, [EvPrint "Commit cancelled"])).
Proof.
  unfold answer_branch.
  destruct (String.eqb_spec (lower answer) "y") as [Hy|Hy]; [now left|].
  destruct (String.eqb_spec (lower answer) "e") as [He|He].
  - right; left. split; [assumption|]. apply edit_branch_cases.
  - right; right. now repeat split.
Qed.

Lemma requests_app (t1 t2 : list event) :
  requests (t1 ++ t2) = (requests t1 ++ requests t2)%list.
Proof.
  unfold requests. apply filter_app.
Qed.

Lemma requests_none (t : list event) :
  (forall e, In e t -> is_request e = false) -> requests t = [].
Proof.
  induction t as [|e t IH]; intros H; [reflexivity|].
  unfold requests in *. cbn [filter].
  rewrite (H e (or_introl eq_refl)).
  apply IH. intros e' He'. apply H. now right.
Qed.

Lemma requests_get_staged_changes (w : world) :
  requests (trace (get_staged_changes w)) = [].
Proof.
  apply requests_none. intros e H.
  apply in_trace_get_staged_changes in H.
  destruct H as [->|[[p [->| ->]]| ->]]; reflexivity.
Qed.

Lemma answer_branch_quiet (w : world) (text answer : string)
    (more : list content_block) :
  requests (trace (answer_branch w text more answer)) = []
  /\ (commits (trace (answer_branch w text more answer)) = []
      \/ lower answer = "y"
         /\ commits (trace (answer_branch w text more answer))
            = [EvSpawn (commit_argv text)]).
Proof.
  destruct (answer_branch_cases w text answer more)
    as [[Hy ->]|[[_ ->]|[_ [_ ->]]]].
  - rewrite create_commit_cases.
    destruct (subprocess w (commit_argv text)); split; auto.
  - split; auto.
  - split; auto.
Qed.

(** The commit commands of a run: none, or the one [git commit -m] of the
    Accept branch. *)
Lemma commits_of_a_run (w : world) :
  commits (trace (main w)) = []
  \/ exists (text answer : string) (before after : list event),
       stdin_line w = Some answer
       /\ lower answer = "y"
       /\ commits (trace (main w)) = [EvSpawn (commit_argv text)]
       /\ trace (main w)
          = (before
             ++ [EvPrint (triple_quote ++ nl ++ text ++ nl ++ triple_quote);
                 EvInput (nl ++ "Do you want to create this commit? (y/n/e[edit]): ");
                 EvSpawn (commit_argv text)]
             ++ after)%list
       /\ commits before = [] /\ commits after = [].
Proof.
  rewrite main_run_summary. unfold run_summary.
  destruct (anthropic_new w _); [now left|].
  destruct (env_missing w _); [now left|].
  pose proof (commits_get_staged_changes w) as Hnone.
  destruct (get_staged_changes w) as [[changes|e] collecting];
    cbn [trace snd] in Hnone |- *; [|now left].
  unfold after_collect.
  destruct changes as [|c rest];
    [left; cbn [trace snd]; now rewrite commits_app, Hnone|].
  destruct (messages_create w _) as [msg|[|[text|] more]];
    try (left; cbn [trace snd]; now rewrite commits_app, Hnone).
  destruct (stdin_line w) as [answer|];
    [|left; cbn [trace snd]; now rewrite commits_app, Hnone].
  cbn [trace snd].
  destruct (answer_branch_cases w text answer more)
    as [[Hy ->]|[[_ ->]|[_ [_ ->]]]];
    try (left; cbn [trace snd]; now rewrite !commits_app, Hnone).
  right. rewrite create_commit_cases.
  exists text, answer,
    (collecting ++ [request_event (c :: rest); heading_event])%list.
  destruct (subprocess w (commit_argv text)); cbn [trace snd];
    eexists; (split; [reflexivity|]); (split; [assumption|]);
    (split; [now rewrite !commits_app, Hnone|]);
    (split; [rewrite <- !app_assoc; reflexivity|]);
    (split; [now rewrite commits_app, Hnone|reflexivity]).
Qed.

(** X3: in every run the program sends at most one request to the
    generation service.  When it sends one, the collection had returned a
    non-empty list of changes, and the request carries the fixed model
    name, the limit of 1000 tokens and the prompt built from exactly those
    changes. *)
Theorem at_most_one_request (w : world) :
  requests (trace (main w)) = []
  \/ exists changes : list ChangeRecord,
       outcome (get_staged_changes w) = Ret changes
       /\ changes <> []
       /\ requests (trace (main w))
          = [EvMessagesCreate "claude-3-5-sonnet-latest" 1000
               (prepare_claude_prompt changes)].
Proof.
  rewrite main_run_summary. unfold run_summary.
  destruct (anthropic_new w _); [now left|].
  destruct (env_missing w _); [now left|].
  pose proof (requests_get_staged_changes w) as Hnone.
  destruct (get_staged_changes w) as [[changes|e] collecting];
    cbn [trace snd outcome fst] in Hnone |- *; [|now left].
  unfold after_collect.
  destruct changes as [|c rest];
    [left; cbn [trace snd]; now rewrite requests_app, Hnone|].
  right. exists (c :: rest).
  split; [reflexivity|]. split; [discriminate|].
  destruct (messages_create w _) as [msg|[|[text|] more]];
    try (cbn [trace snd]; now rewrite requests_app, Hnone).
  destruct (stdin_line w) as [answer|];
    cbn [trace snd]; rewrite !requests_app, Hnone;
    [|reflexivity].
  rewrite (proj1 (answer_branch_quiet w text answer more)). reflexivity.
Qed.

(** ** Exit statuses *)

Lemma collect_one_outcome (w : world) (file_path : string)
    (changes : list ChangeRecord) :
  (exists changes', outcome (collect_one w file_path changes) = Ret changes')
  \/ outcome (collect_one w file_path changes) = Raise CalledProcessError
  \/ outcome (collect_one w file_path changes) = Raise OSError.
Proof.
  unfold collect_one, check_output, read_file.
  destruct (subprocess w (diff_argv file_path)); cbn; auto.
  destruct (read_text w file_path); cbn; eauto.
Qed.

Lemma for_each_collect_outcome (w : world) (paths : list string)
    (changes : list ChangeRecord) :
  (exists changes',
     outcome (for_each paths (collect_one w) changes) = Ret changes')
  \/ outcome (for_each paths (collect_one w) changes) = Raise CalledProcessError
  \/ outcome (for_each paths (collect_one w) changes) = Raise OSError.
Proof.
  revert changes.
  induction paths as [|p paths IH]; intros changes; [left; now eexists|].
  cbn [for_each]. rewrite outcome_bind.
  destruct (collect_one_outcome w p changes) as [[changes' ->]|[-> | ->]];
    auto.
Qed.

(** The collection returns its list, or exits with status 1 after its
    message, or is cut short by an [OSError]; nothing else. *)
Lemma get_staged_changes_outcome (w : world) :
  (exists changes, outcome (get_staged_changes w) = Ret changes)
  \/ outcome (get_staged_changes w) = Raise (SystemExit 1)
  \/ outcome (get_staged_changes w) = Raise OSError.
Proof.
  unfold get_staged_changes, check_output.
  destruct (subprocess w list_staged_argv) as [listing| |]; cbn; auto.
  pose proof (for_each_collect_outcome w
                (filter truthy (split "010"%char listing)) []) as H.
  destruct (for_each _ _ _) as [r t].
  cbn [outcome fst] in H. cbn [bind ret].
  destruct H as [[changes' ->]|[-> | ->]]; cbn; eauto.
Qed.

(** The exit status of a run is 0 or 1; when it is 0, the last thing
    printed tells why. *)
Lemma exit_status_cases (w : world) :
  (exit_status (outcome (main w)) = 0%Z \/ exit_status (outcome (main w)) = 1%Z)
  /\ (exit_status (outcome (main w)) = 0%Z ->
      exists (before : list event) (last : string),
        trace (main w) = (before ++ [EvPrint last])%list
        /\ (last = "No changes staged for commit"
            \/ last = "Commit cancelled"
            \/ exists text,
                 last = "Successfully created commit with message:"
                        ++ nl ++ text)).
Proof.
  rewrite main_run_summary. unfold run_summary.
  destruct (anthropic_new w _); [split; [now right|discriminate]|].
  destruct (env_missing w _); [split; [now right|discriminate]|].
  pose proof (get_staged_changes_outcome w) as Hcollect.
  destruct (get_staged_changes w) as [[changes|e] collecting];
    cbn [outcome fst trace snd] in Hcollect |- *.
  2:{ destruct Hcollect as [[cs H]|[H|H]]; try discriminate H;
        injection H as ->; split; auto; discriminate. }
  clear Hcollect. unfold after_collect.
  destruct changes as [|c rest].
  { split; [now left|]. intros _.
    exists collecting, "No changes staged for commit". auto. }
  destruct (messages_create w _) as [msg|[|[text|] more]];
    try (split; [now right|discriminate]).
  destruct (stdin_line w) as [answer|];
    [|split; [now right|discriminate]].
  cbn [outcome fst trace snd].
  destruct (answer_branch_cases w text answer more)
    as [[Hy ->]|[[_ ->]|[_ [_ ->]]]].
  - rewrite create_commit_cases.
    destruct (subprocess w (commit_argv text));
      cbn [outcome fst trace snd exit_status];
      (split; [auto|]); try discriminate.
    intros _.
    exists (collecting ++ asking_events (c :: rest) text
            ++ [EvSpawn (commit_argv text)])%list,
      ("Successfully created commit with message:" ++ nl ++ text).
    split; [now rewrite <- !app_assoc|]. right; right. now exists text.
  - cbn [outcome fst]. destruct (open_w w _);
      (split; [now right|discriminate]).
  - cbn [outcome fst trace snd exit_status]. split; [now left|]. intros _.
    exists (collecting ++ asking_events (c :: rest) text)%list,
      "Commit cancelled".
    split; [now rewrite <- !app_assoc|]. auto.
Qed.

(** ** The collector *)

Lemma split_line (c : ascii) (p rest : string) :
  has_char c p = false ->
  split c (p ++ String c rest) = p :: split c rest.
Proof.
  induction p as [|x p IH]; intros Hp.
  - cbn [append split]. now rewrite Ascii.eqb_refl.
  - cbn [has_char] in Hp. apply Bool.orb_false_iff in Hp.
    destruct Hp as [Hx Hp].
    cbn [append split]. rewrite Hx, (IH Hp). reflexivity.
Qed.

Lemma split_fields_no_sep (c : ascii) (s field : string) :
  In field (split c s) -> has_char c field = false.
Proof.
  revert field.
  induction s as [|x s IH]; intros field Hin.
  - destruct Hin as [<-|[]]. reflexivity.
  - cbn [split] in Hin.
    destruct (Ascii.eqb x c) eqn:Hx.
    + destruct Hin as [<-|Hin]; [reflexivity|now apply IH].
    + destruct (split c s) as [|f fs] eqn:Hs.
      * destruct Hin as [<-|[]]. cbn [has_char]. now rewrite Hx.
      * destruct Hin as [<-|Hin].
        -- cbn [has_char]. rewrite Hx. apply IH. now left.
        -- apply IH. now right.
Qed.

Lemma listing_of_cons (p : string) (names : list string) :
  listing_of (p :: names) = p ++ String "010"%char (listing_of names).
Proof.
  unfold listing_of. cbn [map join]. now rewrite append_assoc.
Qed.

(** The staged paths of a listing of well-formed names are those names. *)
Lemma staged_paths_listing_of (names : list string) :
  forallb line_name names = true ->
  staged_paths (listing_of names) = names.
Proof.
  unfold staged_paths.
  induction names as [|p names IH]; intros Hnames; [reflexivity|].
  cbn [forallb] in Hnames. apply Bool.andb_true_iff in Hnames.
  destruct Hnames as [Hp Hnames].
  unfold line_name in Hp. apply Bool.andb_true_iff in Hp.
  destruct Hp as [Hne Hnl]. apply Bool.negb_true_iff in Hnl.
  rewrite listing_of_cons, (split_line _ _ _ Hnl).
  cbn [filter]. rewrite Hne, (IH Hnames). reflexivity.
Qed.

(** X6: every path the collector takes from git's listing is a non-empty
    string without a line feed, whatever git printed: blank lines are
    dropped, and no path spans two lines. *)
Theorem staged_paths_are_lines (listing : string) :
  forallb line_name (staged_paths listing) = true.
Proof.
  unfold staged_paths, line_name.
  apply forallb_forall. intros p Hp.
  apply filter_In in Hp. destruct Hp as [Hin Hne].
  rewrite Hne. cbn [andb].
  now rewrite (split_fields_no_sep _ _ _ Hin).
Qed.

(** X7: when git lists well-formed names, one per line, and answers the
    diff query of each, the collection returns exactly one record per
    name, in git's order, holding the name, the diff git printed for it
    and the file's text (the empty string if it cannot be read); and it
    does exactly this: the listing query, then for each name its diff
    query followed by the read of the file. *)
Theorem collection_end_to_end (w : world) (names : list string) :
  forallb line_name names = true ->
  subprocess w list_staged_argv = Exited0 (listing_of names) ->
  (forall p, In p names ->
     exists text, subprocess w (diff_argv p) = Exited0 text) ->
  get_staged_changes w
  = (Ret (map (collected w) names),
     EvSpawn list_staged_argv :: flat_map collect_events names)
  /\ map path (map (collected w) names) = names
  /\ (forall p text, In p names ->
        subprocess w (diff_argv p) = Exited0 text ->
        diff (collected w p) = text).
Proof.
  intros Hnames Hlist Hdiffs.
  pose proof (staged_paths_listing_of names Hnames) as Hpaths.
  split; [|split].
  - rewrite (get_staged_changes_ok w (listing_of names) Hlist);
      rewrite Hpaths; [reflexivity|assumption].
  - rewrite map_map. unfold collected, path; simpl. apply map_id.
  - intros p text _ Hp. unfold collected, diff; simpl. now rewrite Hp.
Qed.

Lemma collection_end_to_end_witness :
  get_staged_changes unreadable_world
  = (Ret [("a.txt", "", "text"); ("logo.png", "", "")],
     [EvSpawn list_staged_argv;
      EvSpawn (diff_argv "a.txt"); EvOpenRead "a.txt";
      EvSpawn (diff_argv "logo.png"); EvOpenRead "logo.png"])
  /\ map path
       (map (collected unreadable_world) ["a.txt"; "logo.png"])
     = ["a.txt"; "logo.png"]
  /\ (forall p text, In p ["a.txt"; "logo.png"] ->
        subprocess unreadable_world (diff_argv p) = Exited0 text ->
        diff (collected unreadable_world p) = text).
Proof.
  apply (collection_end_to_end unreadable_world ["a.txt"; "logo.png"]).
  - reflexivity.
  - reflexivity.
  - intros p _. unfold unreadable_world, subprocess.
    destruct (argv_eqb (diff_argv p) list_staged_argv); eexists; reflexivity.
Defined.

Lemma for_each_collect_fails (w : world) (before after : list string)
    (p : string) (changes : list ChangeRecord) :
  (forall q, In q before ->
     exists text, subprocess w (diff_argv q) = Exited0 text) ->
  subprocess w (diff_argv p) = ExitedNonZero ->
  for_each (before ++ p :: after) (collect_one w) changes
  = (Raise CalledProcessError,
     (flat_map collect_events before ++ [EvSpawn (diff_argv p)])%list).
Proof.
  intros Hbefore Hp. revert changes.
  induction before as [|q before IH]; intros changes.
  - cbn [app for_each flat_map].
    unfold collect_one, check_output. rewrite Hp. reflexivity.
  - destruct (Hbefore q (or_introl eq_refl)) as [text Hq].
    cbn [app for_each flat_map].
    rewrite (collect_one_ok w _ _ _ Hq). unfold bind.
    rewrite IH by (intros q' Hq'; apply Hbefore; now right).
    now rewrite <- app_assoc.
Qed.

(** X8: when the diff query of one staged path ends with a non-zero exit
    status, the run stops there: the records collected so far are dropped,
    the program prints its repository error and exits with status 1; the
    later paths are not queried, no request is sent and nothing is
    committed. *)
Theorem diff_query_failure_is_reported (w : world) (key listing p : string)
    (before after : list string) :
  getenv w "ANTHROPIC_API_KEY" = Some key ->
  truthy key = true ->
  anthropic_new w (Some key) = None ->
  subprocess w list_staged_argv = Exited0 listing ->
  staged_paths listing = (before ++ p :: after)%list ->
  (forall q, In q before ->
     exists text, subprocess w (diff_argv q) = Exited0 text) ->
  subprocess w (diff_argv p) = ExitedNonZero ->
  main w
  = (Raise (SystemExit 1),
     (EvSpawn list_staged_argv :: flat_map collect_events before
      ++ [EvSpawn (diff_argv p);
          EvPrint "Error: Not a git repository or git is not installed"])%list).
Proof.
  intros Hkey Htruthy Hnew Hlist Hpaths Hbefore Hp.
  rewrite main_run_summary. unfold run_summary, env_missing.
  rewrite Hkey, Hnew, Htruthy. cbn [negb].
  unfold get_staged_changes, check_output. rewrite Hlist.
  cbn [bind emit ret app].
  fold (staged_paths listing). rewrite Hpaths.
  rewrite (for_each_collect_fails w before after p [] Hbefore Hp).
  cbn [bind try_except is_CalledProcessError print emit sys_exit raise app].
  now rewrite <- app_assoc.
Qed.

Lemma diff_query_failure_is_reported_witness :
  main broken_diff_world
  = (Raise (SystemExit 1),
     [EvSpawn list_staged_argv;
      EvSpawn (diff_argv "a.txt"); EvOpenRead "a.txt";
      EvSpawn (diff_argv "b.txt");
      EvPrint "Error: Not a git repository or git is not installed"]).
Proof.
  apply (diff_query_failure_is_reported broken_diff_world
           "sk-ant-test" (listing_of ["a.txt"; "b.txt"]) "b.txt"
           ["a.txt"] []); try reflexivity.
  intros q [<-|[]]. now exists "+a".
Defined.

(** X9: when the listing query itself ends with a non-zero exit status (as
    outside a repository), the program prints its repository error and
    exits with status 1 at once, without a traceback. *)
Theorem listing_failure_is_reported (w : world) (key : string) :
  getenv w "ANTHROPIC_API_KEY" = Some key ->
  truthy key = true ->
  anthropic_new w (Some key) = None ->
  subprocess w list_staged_argv = ExitedNonZero ->
  main w
  = (Raise (SystemExit 1),
     [EvSpawn list_staged_argv;
      EvPrint "Error: Not a git repository or git is not installed"])
  /\ exit_status (outcome (main w)) = 1%Z
  /\ traceback (outcome (main w)) = false.
Proof.
  intros Hkey Htruthy Hnew Hlist.
  rewrite (git_query_failure_is_reported w key Hkey Htruthy Hnew Hlist).
  repeat split.
Qed.

Lemma listing_failure_is_reported_witness :
  main outside_repository_world
  = (Raise (SystemExit 1),
     [EvSpawn list_staged_argv;
      EvPrint "Error: Not a git repository or git is not installed"])
  /\ exit_status (outcome (main outside_repository_world)) = 1%Z
  /\ traceback (outcome (main outside_repository_world)) = false.
Proof.
  apply (listing_failure_is_reported outside_repository_world "sk-ant-test");
    reflexivity.
Defined.

(** X10: the collection reads and never changes anything: whatever git and
    the files do, its only subprocesses are the two kinds of
    [git diff --cached] query, it opens files for reading only, and it
    neither asks the user nor calls the generation service. *)
Theorem collection_is_read_only (w : world) (e : event) :
  In e (trace (get_staged_changes w)) ->
  match e with
  | EvSpawn argv =>
      argv = list_staged_argv \/ exists p, argv = diff_argv p
  | EvPrint text =>
      text = "Error: Not a git repository or git is not installed"
  | EvOpenRead _ => True
  | EvOpenWrite _ | EvFileWrite _ _ | EvInput _ | EvMessagesCreate _ _ _ =>
      False
  end.
Proof.
  intros H. apply in_trace_get_staged_changes in H.
  destruct H as [->|[[p [->| ->]]| ->]]; eauto.
Qed.

Lemma collection_is_read_only_witness :
  match EvSpawn (diff_argv "logo.png") with
  | EvSpawn argv =>
      argv = list_staged_argv \/ exists p, argv = diff_argv p
  | EvPrint text =>
      text = "Error: Not a git repository or git is not installed"
  | EvOpenRead _ => True
  | EvOpenWrite _ | EvFileWrite _ _ | EvInput _ | EvMessagesCreate _ _ _ =>
      False
  end.
Proof.
  apply (collection_is_read_only unreadable_world).
  vm_compute. auto.
Defined.

(** ** Commits and exit statuses of every run *)

(** X4: the program never starts [git commit -m] on its own.  Whenever a
    run starts it, the user was asked and answered ["y"] or ["Y"], the
    message committed is the text shown between the triple quotes just
    before the question, and no commit command comes before or after. *)
Theorem commit_needs_confirmation (w : world) (text : string) :
  In (EvSpawn (commit_argv text)) (trace (main w)) ->
  exists (answer : string) (before after : list event),
    stdin_line w = Some answer
    /\ lower answer = "y"
    /\ trace (main w)
       = (before
          ++ [EvPrint (triple_quote ++ nl ++ text ++ nl ++ triple_quote);
              EvInput (nl ++ "Do you want to create this commit? (y/n/e[edit]): ");
              EvSpawn (commit_argv text)]
          ++ after)%list
    /\ commits before = [] /\ commits after = [].
Proof.
  intros Hin.
  assert (Hc : In (EvSpawn (commit_argv text)) (commits (trace (main w)))).
  { unfold commits. apply filter_In. now split. }
  destruct (commits_of_a_run w)
    as [Hnone|(text' & answer & before & after & Hans & Hy & Hone & Htrace
               & Hbefore & Hafter)].
  - rewrite Hnone in Hc. destruct Hc.
  - rewrite Hone in Hc. destruct Hc as [Hc|[]].
    injection Hc as ->. now exists answer, before, after.
Qed.

Lemma commit_needs_confirmation_witness :
  exists (answer : string) (before after : list event),
    stdin_line (sample_world true (inr [TextBlock "Add greeting"]) "Y")
    = Some answer
    /\ lower answer = "y"
    /\ trace (main (sample_world true (inr [TextBlock "Add greeting"]) "Y"))
       = (before
          ++ [EvPrint (triple_quote ++ nl ++ "Add greeting" ++ nl
                       ++ triple_quote);
              EvInput (nl ++ "Do you want to create this commit? (y/n/e[edit]): ");
              EvSpawn (commit_argv "Add greeting")]
          ++ after)%list
    /\ commits before = [] /\ commits after = [].
Proof.
  apply (commit_needs_confirmation
           (sample_world true (inr [TextBlock "Add greeting"]) "Y")
           "Add greeting").
  vm_compute. auto 10.
Defined.

Lemma collect_one_ret (w : world) (p : string)
    (changes changes' : list ChangeRecord) :
  outcome (collect_one w p changes) = Ret changes' ->
  exists text, subprocess w (diff_argv p) = Exited0 text.
Proof.
  unfold collect_one, check_output.
  destruct (subprocess w (diff_argv p)) as [text| |]; cbn;
    try discriminate.
  intros _. now exists text.
Qed.

Lemma for_each_collect_ret (w : world) (paths : list string)
    (changes changes' : list ChangeRecord) :
  outcome (for_each paths (collect_one w) changes) = Ret changes' ->
  forall p, In p paths ->
    exists text, subprocess w (diff_argv p) = Exited0 text.
Proof.
  revert changes.
  induction paths as [|q paths IH]; intros changes H p Hp; [destruct Hp|].
  cbn [for_each] in H. rewrite outcome_bind in H.
  destruct (outcome (collect_one w q changes)) as [mid|e] eqn:Hq;
    [|discriminate H].
  destruct Hp as [<-|Hp].
  - exact (collect_one_ret w q changes mid Hq).
  - exact (IH mid H p Hp).
Qed.

(** When the collection returns, every query it made had exit status 0. *)
Lemma get_staged_changes_ret (w : world) (changes : list ChangeRecord) :
  outcome (get_staged_changes w) = Ret changes ->
  forall argv, In (EvSpawn argv) (trace (get_staged_changes w)) ->
    exists stdout, subprocess w argv = Exited0 stdout.
Proof.
  intros Hret.
  assert (Hq : exists listing,
             subprocess w list_staged_argv = Exited0 listing
             /\ forall p, In p (staged_paths listing) ->
                  exists text, subprocess w (diff_argv p) = Exited0 text).
  { revert Hret. unfold get_staged_changes, check_output.
    destruct (subprocess w list_staged_argv) as [listing| |];
      cbn; try discriminate.
    intros Hret. exists listing. split; [reflexivity|].
    fold (staged_paths listing) in Hret.
    destruct (for_each (staged_paths listing) (collect_one w) [])
      as [[cs|e] t] eqn:Hloop.
    - apply (for_each_collect_ret w _ [] cs). now rewrite Hloop.
    - cbn in Hret. destruct (is_CalledProcessError e); discriminate Hret. }
  destruct Hq as [listing [Hlist Hdiffs]].
  rewrite (get_staged_changes_ok w listing Hlist Hdiffs).
  cbn [trace snd]. intros argv [H|H].
  - injection H as <-. now exists listing.
  - apply in_flat_map in H. destruct H as [p [Hp [H|[H|[]]]]];
      [|discriminate H].
    injection H as <-. exact (Hdiffs p Hp).
Qed.

(** X5: the exit status of every run is 0 or 1, and status 0 never hides a
    failure of git: in a run that ends with status 0, every subprocess the
    program started (the queries and, if any, the commit) ended with exit
    status 0, and no traceback is printed. *)
Theorem exit_zero_means_success (w : world) :
  (exit_status (outcome (main w)) = 0%Z \/ exit_status (outcome (main w)) = 1%Z)
  /\ (exit_status (outcome (main w)) = 0%Z ->
      traceback (outcome (main w)) = false
      /\ forall argv, In (EvSpawn argv) (trace (main w)) ->
           exists stdout, subprocess w argv = Exited0 stdout).
Proof.
  split; [exact (proj1 (exit_status_cases w))|].
  rewrite main_run_summary. unfold run_summary.
  destruct (anthropic_new w _); [discriminate|].
  destruct (env_missing w _); [discriminate|].
  pose proof (get_staged_changes_ret w) as Hqueries.
  pose proof (get_staged_changes_outcome w) as Hcollect.
  destruct (get_staged_changes w) as [[changes|e] collecting];
    cbn [outcome fst trace snd] in Hqueries, Hcollect |- *.
  2:{ destruct Hcollect as [[cs H]|[H|H]]; try discriminate H;
        injection H as ->; discriminate. }
  specialize (Hqueries changes eq_refl). clear Hcollect.
  unfold after_collect.
  destruct changes as [|c rest].
  { intros _. split; [reflexivity|].
    intros argv H. apply in_app_or in H. destruct H as [H|[H|[]]];
      [now apply Hqueries|discriminate H]. }
  destruct (messages_create w _) as [msg|[|[text|] more]];
    try discriminate.
  destruct (stdin_line w) as [answer|]; [|discriminate].
  cbn [outcome fst trace snd].
  destruct (answer_branch_cases w text answer more)
    as [[Hy ->]|[[_ ->]|[_ [_ ->]]]].
  - rewrite create_commit_cases.
    destruct (subprocess w (commit_argv text)) as [out| |] eqn:Hcommit;
      cbn [outcome fst trace snd exit_status]; try discriminate.
    intros _. split; [reflexivity|].
    intros argv H. apply in_app_or in H. destruct H as [H|H];
      [now apply Hqueries|].
    apply in_app_or in H. destruct H as [H|H].
    + repeat (destruct H as [H|H]; [discriminate H|]). destruct H.
    + destruct H as [H|[H|[]]]; [|discriminate H].
      injection H as <-. now exists out.
  - cbn [outcome fst]. destruct (open_w w _); discriminate.
  - cbn [outcome fst trace snd exit_status]. intros _.
    split; [reflexivity|].
    intros argv H. apply in_app_or in H. destruct H as [H|H];
      [now apply Hqueries|].
    apply in_app_or in H. destruct H as [H|H];
      repeat (destruct H as [H|H]; [discriminate H|]); destruct H.
Qed.

(** ** The key, the reply and the terminal: edge cases *)

(** X11: a key that is set to the empty string counts as missing: the run
    ends with a non-zero exit status and starts no subprocess; when the
    client's constructor accepts the empty key, the program prints its
    message about the missing variable and exits with status 1. *)
Theorem empty_api_key_is_missing (w : world) :
  getenv w "ANTHROPIC_API_KEY" = Some "" ->
  exit_status (outcome (main w)) <> 0%Z
  /\ (forall argv, ~ In (EvSpawn argv) (trace (main w)))
  /\ (anthropic_new w (Some "") = None ->
      main w
      = (Raise (SystemExit 1),
         [EvPrint "Error: ANTHROPIC_API_KEY environment variable not set"])).
Proof.
  intros Hkey.
  rewrite main_run_summary. unfold run_summary, env_missing. rewrite Hkey.
  destruct (anthropic_new w (Some "")) as [msg|]; cbn.
  - split; [discriminate|]. split; [intros argv []|discriminate].
  - split; [discriminate|]. split; [|reflexivity].
    intros argv [H|[]]. discriminate H.
Qed.

Lemma empty_api_key_is_missing_witness :
  exit_status (outcome (main empty_key_world)) <> 0%Z
  /\ (forall argv, ~ In (EvSpawn argv) (trace (main empty_key_world)))
  /\ (anthropic_new empty_key_world (Some "") = None ->
      main empty_key_world
      = (Raise (SystemExit 1),
         [EvPrint "Error: ANTHROPIC_API_KEY environment variable not set"])).
Proof.
  apply (empty_api_key_is_missing empty_key_world). reflexivity.
Defined.

(** X12: a reply without a text block in first place stops the run right
    after the heading: [commit_message[0]] raises an [IndexError] on an
    empty reply, and [.text] an [AttributeError] on a block of another
    kind.  No message is shown, the user is not asked, nothing is
    committed. *)
Theorem reply_without_text_raises (w : world) (key : string)
    (changes : list ChangeRecord) (collecting : list event)
    (blocks : list content_block) :
  getenv w "ANTHROPIC_API_KEY" = Some key ->
  truthy key = true ->
  anthropic_new w (Some key) = None ->
  get_staged_changes w = (Ret changes, collecting) ->
  changes <> [] ->
  messages_create w (prepare_claude_prompt changes) = inr blocks ->
  (forall text more, blocks <> TextBlock text :: more) ->
  main w
  = (Raise (match blocks with
            | [] => IndexError
            | _ :: _ => AttributeError
            end),
     (collecting ++ [request_event changes; heading_event])%list)
  /\ commits (trace (main w)) = []
  /\ (forall prompt, ~ In (EvInput prompt) (trace (main w))).
Proof.
  intros Hkey Htruthy Hnew Hcollect Hne Hreply Hblocks.
  assert (Hmain : main w
                  = (Raise (match blocks with
                            | [] => IndexError
                            | _ :: _ => AttributeError
                            end),
                     (collecting
                      ++ [request_event changes; heading_event])%list)).
  { rewrite main_run_summary. unfold run_summary, env_missing.
    rewrite Hkey, Hnew, Htruthy, Hcollect. cbn [negb].
    unfold after_collect.
    destruct changes as [|c rest]; [contradiction|].
    rewrite Hreply.
    destruct blocks as [|[text|] more]; [reflexivity| |reflexivity].
    now destruct (Hblocks text more). }
  rewrite Hmain. cbn [trace snd].
  split; [reflexivity|]. split.
  - rewrite commits_app.
    now rewrite (commits_collecting w changes collecting Hcollect).
  - intros prompt H. apply in_app_or in H. destruct H as [H|H].
    + assert (Hin : In (EvInput prompt) (trace (get_staged_changes w)))
        by now rewrite Hcollect.
      apply in_trace_get_staged_changes in Hin.
      destruct Hin as [E|[[p [E|E]]|E]]; discriminate E.
    + repeat (destruct H as [H|H]; [discriminate H|]). exact H.
Qed.

Lemma reply_without_text_raises_witness :
  main (sample_world true (inr []) "y")
  = (Raise IndexError,
     ([EvSpawn list_staged_argv; EvSpawn (diff_argv "foo.txt");
       EvOpenRead "foo.txt"]
      ++ [request_event [("foo.txt", "+hello", "hello")]; heading_event])%list)
  /\ commits (trace (main (sample_world true (inr []) "y"))) = []
  /\ (forall prompt,
        ~ In (EvInput prompt) (trace (main (sample_world true (inr []) "y")))).
Proof.
  apply (reply_without_text_raises (sample_world true (inr []) "y")
           "sk-ant-test" [("foo.txt", "+hello", "hello")]
           [EvSpawn list_staged_argv; EvSpawn (diff_argv "foo.txt");
            EvOpenRead "foo.txt"] []);
    try reflexivity; discriminate.
Defined.

(** X13: when standard input is at its end, the question cannot be
    answered: the staged changes have been sent to the service and the
    message has been shown, then [input] raises an [EOFError] that nothing
    catches, and nothing is committed. *)
Theorem closed_stdin_raises (w : world) (key text : string)
    (changes : list ChangeRecord) (collecting : list event)
    (more : list content_block) :
  getenv w "ANTHROPIC_API_KEY" = Some key ->
  truthy key = true ->
  anthropic_new w (Some key) = None ->
  get_staged_changes w = (Ret changes, collecting) ->
  changes <> [] ->
  messages_create w (prepare_claude_prompt changes)
  = inr (TextBlock text :: more) ->
  stdin_line w = None ->
  main w = (Raise EOFError, (collecting ++ asking_events changes text)%list)
  /\ commits (trace (main w)) = []
  /\ exit_status (outcome (main w)) = 1%Z.
Proof.
  intros Hkey Htruthy Hnew Hcollect Hne Hreply Hin.
  assert (Hmain : main w
                  = (Raise EOFError,
                     (collecting ++ asking_events changes text)%list)).
  { rewrite main_run_summary. unfold run_summary, env_missing.
    rewrite Hkey, Hnew, Htruthy, Hcollect. cbn [negb].
    unfold after_collect.
    destruct changes as [|c rest]; [contradiction|].
    now rewrite Hreply, Hin. }
  rewrite Hmain. cbn [trace snd outcome fst exit_status].
  split; [reflexivity|]. split; [|reflexivity].
  rewrite commits_app, commits_asking_events.
  now rewrite (commits_collecting w changes collecting Hcollect).
Qed.

Lemma closed_stdin_raises_witness :
  main unattended_world
  = (Raise EOFError,
     ([EvSpawn list_staged_argv; EvSpawn (diff_argv "foo.txt");
       EvOpenRead "foo.txt"]
      ++ asking_events [("foo.txt", "+hello", "hello")] "Add greeting")%list)
  /\ commits (trace (main unattended_world)) = []
  /\ exit_status (outcome (main unattended_world)) = 1%Z.
Proof.
  apply (closed_stdin_raises unattended_world "sk-ant-test" "Add greeting"
           [("foo.txt", "+hello", "hello")]
           [EvSpawn list_staged_argv; EvSpawn (diff_argv "foo.txt");
            EvOpenRead "foo.txt"] []);
    try reflexivity; discriminate.
Defined.

(** ** The size of a prompt *)

Lemma length_append (a b : string) :
  String.length (a ++ b) = String.length a + String.length b.
Proof.
  induction a as [|x a IH]; simpl; [reflexivity|].
  now rewrite IH.
Qed.

Lemma length_record_block (r : ChangeRecord) :
  String.length (record_block r) = block_size r.
Proof.
  unfold record_block, block_size, block_overhead.
  rewrite !length_append. simpl String.length. lia.
Qed.

(** X14: nothing is cut from a prompt: its length is the 690 characters of
    the header and the closing instruction, plus, for each change, the
    lengths of its path, its diff and its content and 38 characters of
    labels and line feeds. *)
Theorem prompt_length (changes : list ChangeRecord) :
  String.length (prepare_claude_prompt changes)
  = 690 + list_sum (map block_size changes).
Proof.
  rewrite prepare_claude_prompt_blocks, !length_append.
  change (String.length prompt_header) with 600.
  change (String.length prompt_closing) with 90.
  assert (H : String.length (join (map record_block changes))
              = list_sum (map block_size changes)).
  { induction changes as [|r changes IH]; [reflexivity|].
    cbn [map join list_sum].
    now rewrite length_append, length_record_block, IH. }
  rewrite H. lia.
Qed.

(** ** The message generator on its own *)

(** X15: [get_commit_message_from_claude] never raises and sends exactly
    one request, built from the changes it was given.  When the service
    answers, it returns the blocks of the reply and prints nothing; when
    the service raises, it prints the error after
    ["Error calling Claude API: "] and returns the string of the fallback
    generator for the same changes. *)
Theorem get_commit_message_never_raises (w : world)
    (changes : list ChangeRecord) :
  exists (message : commit_message) (printed : list event),
    get_commit_message_from_claude w changes
    = (Ret message, request_event changes :: printed)
    /\ match messages_create w (prepare_claude_prompt changes) with
       | inr blocks => message = Blocks blocks /\ printed = []
       | inl msg =>
           generate_fallback_message changes
           = (Ret (fallback_text changes), [])
           /\ message = Plain (fallback_text changes)
           /\ printed = [EvPrint ("Error calling Claude API: " ++ msg)]
       end.
Proof.
  destruct (messages_create w (prepare_claude_prompt changes))
    as [msg|blocks] eqn:Hreply.
  - exists (Plain (fallback_text changes)),
      [EvPrint ("Error calling Claude API: " ++ msg)].
    split; [exact (get_commit_message_failure w changes msg Hreply)|].
    split; [apply generate_fallback_message_returns|]. now split.
  - exists (Blocks blocks), [].
    split; [exact (get_commit_message_success w changes blocks Hreply)|].
    now split.
Qed.
